(** * Ventashop: the shop models (ventashop/models.py) over a model of the
      object-relational layer.

    The store is a small relational database: one table per model class,
    each with the sequence of its AutoField (never reusing a key, as
    SQLite's AUTOINCREMENT).  Model instances are records held
    in memory; [save] copies an instance into its table, a query copies rows
    out again, so an instance and its row can differ until the next save.

    Conventions.
    - A [DecimalField(decimal_places=2)] value is the integer number of
      hundredths it denotes ([Z]); an [IntegerField] is a [Z].
    - A nullable foreign key is an [option nat] holding the primary key.
    - Fields no method of models.py reads (dates, image, description,
      category) are left out of the records.
    - Column constraints checked by the database itself (uniqueness,
      max_length, max_digits) are outside the model: [super().save()] is
      the write it performs when they are met.
    - The framework is Django 4.2, the version that generated the
      migrations (the code cannot run on 5.0 or later, where filtering on
      an unsaved instance, as [Order.objects.create()] makes
      [calculate_total_price] do, is refused). *)

From Stdlib Require Import ZArith Lia.
From stdpp Require Import base option list gmap strings.

Local Open Scope Z_scope.

(** ** Model instances *)

Record product := Product_ {
  product_pk : option nat;
  product_name : string;
  product_slug : string;
  product_price : Z;
}.

Record cart := Cart_ {
  cart_pk : option nat;
  cart_total_price : Z;
  cart_customer_account : option nat;
}.

Record order := Order_ {
  order_pk : option nat;
  order_status : string;
  order_total_price : Z;
  order_vat_amount : Z;
  order_incl_vat_price : Z;
  order_ref_number : string;
  order_slug : string;
  order_customer_account : option nat;
}.

Record comment := Comment_ {
  comment_pk : option nat;
  comment_content : string;
  comment_order : option nat;
}.

(** [li_product_cache] is the related-object cache of the instance: the
    product object the line item was built from, when there is one.  A
    line item read from the database has none, and [self.product] then
    loads the product row. *)
Record line_item := LineItem_ {
  li_pk : option nat;
  li_product_id : nat;
  li_product_cache : option product;
  li_quantity : Z;
  li_price : Z;
  li_cart : option nat;
  li_order : option nat;
}.

(** ** The database *)

Record table (A : Type) := Table {
  rows : gmap nat A;
  next_pk : nat;
}.
Arguments Table {A} _ _.
Arguments rows {A} _.
Arguments next_pk {A} _.

(** [random_refs] is the supply of random strings the reference-number
    generator draws from. *)
Record world := World {
  products : table product;
  carts : table cart;
  orders : table order;
  comments : table comment;
  line_items : table line_item;
  random_refs : list string;
}.

Definition table_insert {A} (k : nat) (x : A) (t : table A) : table A :=
  Table (<[k := x]> (rows t)) (Nat.max (next_pk t) (S k)).

Definition table_delete {A} (k : nat) (t : table A) : table A :=
  Table (delete k (rows t)) (next_pk t).

(** ** Exceptions and the computation monad *)

Inductive exn :=
  | ValueError
  | DoesNotExist
  | MultipleObjectsReturned
  | RecursionError.

Inductive result (A : Type) :=
  | Ok (a : A)
  | Raise (e : exn).
Arguments Ok {A} _.
Arguments Raise {A} _.

(** A computation reads and writes the database and returns or raises; the
    database keeps what was written before an exception (autocommit). *)
Definition M (A : Type) : Type := world → result A * world.

Definition ret {A} (a : A) : M A := λ w, (Ok a, w).

Definition raise {A} (e : exn) : M A := λ w, (Raise e, w).

Definition bind {A B} (c : M A) (k : A → M B) : M B :=
  λ w, match c w with
       | (Ok a, w') => k a w'
       | (Raise e, w') => (Raise e, w')
       end.

Notation "x <-- c ;; k" := (bind c (λ x, k))
  (at level 100, c at next level, right associativity).
Notation "c ;;; k" := (bind c (λ _, k))
  (at level 100, right associativity).

(** [for x in xs: body], threading the loop's state [s]. *)
Fixpoint for_each {A S} (body : A → S → M S) (xs : list A) (s : S) : M S :=
  match xs with
  | [] => ret s
  | x :: xs' => s' <-- body x s ;; for_each body xs' s'
  end.

(** ** django.db.models.Model *)

Class Model (A : Type) := {
  pk : A → option nat;
  set_pk : nat → A → A;
  (** the column values of an instance: what [save] writes *)
  to_row : A → A;
  objects : world → table A;
  set_objects : table A → world → world;
}.

#[export] Instance product_model : Model product := {|
  pk := product_pk;
  set_pk k p := Product_ (Some k) (product_name p) (product_slug p) (product_price p);
  to_row p := p;
  objects := products;
  set_objects t w :=
    World t (carts w) (orders w) (comments w) (line_items w) (random_refs w);
|}.

#[export] Instance cart_model : Model cart := {|
  pk := cart_pk;
  set_pk k c := Cart_ (Some k) (cart_total_price c) (cart_customer_account c);
  to_row c := c;
  objects := carts;
  set_objects t w :=
    World (products w) t (orders w) (comments w) (line_items w) (random_refs w);
|}.

#[export] Instance order_model : Model order := {|
  pk := order_pk;
  set_pk k o :=
    Order_ (Some k) (order_status o) (order_total_price o) (order_vat_amount o)
      (order_incl_vat_price o) (order_ref_number o) (order_slug o)
      (order_customer_account o);
  to_row o := o;
  objects := orders;
  set_objects t w :=
    World (products w) (carts w) t (comments w) (line_items w) (random_refs w);
|}.

#[export] Instance comment_model : Model comment := {|
  pk := comment_pk;
  set_pk k c := Comment_ (Some k) (comment_content c) (comment_order c);
  to_row c := c;
  objects := comments;
  set_objects t w :=
    World (products w) (carts w) (orders w) t (line_items w) (random_refs w);
|}.

#[export] Instance line_item_model : Model line_item := {|
  pk := li_pk;
  set_pk k li :=
    LineItem_ (Some k) (li_product_id li) (li_product_cache li) (li_quantity li)
      (li_price li) (li_cart li) (li_order li);
  to_row li :=
    LineItem_ (li_pk li) (li_product_id li) None (li_quantity li)
      (li_price li) (li_cart li) (li_order li);
  objects := line_items;
  set_objects t w :=
    World (products w) (carts w) (orders w) (comments w) t (random_refs w);
|}.

(** The keyword arguments of [save] used in this program: none, or
    [update_fields] with an empty set (QuerySet.update_or_create passes
    the keys of its [defaults], here none). *)
Inductive save_kwargs :=
  | no_kwargs
  | update_fields_empty.

(** [Model.save]: UPDATE the row of a saved instance (INSERT it when the
    row is gone), INSERT an unsaved one under the next key of the
    sequence; the instance has its primary key set afterwards.  With an
    empty [update_fields] nothing is written. *)
Definition Model_save {A} `{Model A} (kwargs : save_kwargs) (self : A) : M A :=
  match kwargs with
  | update_fields_empty => ret self
  | no_kwargs =>
      λ w, let t := objects w in
           let k := default (next_pk t) (pk self) in
           let self' := set_pk k self in
           (Ok self', set_objects (table_insert k (to_row self') t) w)
  end.

(** [Model.delete] of an instance no other row refers to: its row goes;
    an unsaved instance cannot be deleted. *)
Definition Model_delete {A} `{Model A} (self : A) : M unit :=
  match pk self with
  | None => raise ValueError
  | Some k => λ w, (Ok tt, set_objects (table_delete k (objects w)) w)
  end.

(** A row as an instance: its key is the [pk], its caches are empty. *)
Definition from_db {A} `{Model A} (kr : nat * A) : A :=
  set_pk kr.1 (to_row kr.2).

(** [Manager.all()] *)
Definition objects_all {A} `{Model A} (w : world) : list A :=
  from_db <$> map_to_list (rows (objects w)).

(** The lookup [field=instance] of a related filter: the key equals the
    primary key of the instance.  For an unsaved instance the primary key
    is None, and the query compiles the lookup to [field IS NULL] (Django
    2.0 to 4.2, with a deprecation warning since 4.1; Django ticket
    31486): it selects the rows attached to no instance at all. *)
Definition related_exact (fk : option nat) (instance_pk : option nat) : Prop :=
  fk = instance_pk.

#[export] Instance related_exact_dec fk ipk : Decision (related_exact fk ipk).
Proof. unfold related_exact. apply _. Defined.

(** ** What models.py imports from outside this file

    [slugify] is django.template.defaultfilters.slugify; [get_VAT_prices]
    is ventashop/utils.py's, returning (vat_amount, incl_vat_price). *)
Class Utils := {
  slugify : string → string;
  get_VAT_prices : Z → Z * Z;
}.

(** ** class Product *)

Module Product.

Definition set_slug (s : string) (self : product) : product :=
  Product_ (product_pk self) (product_name self) s (product_price self).

Definition save `{Utils} (self : product) : M product :=
  let self :=
    if decide (product_slug self = EmptyString)
    then set_slug (slugify (product_name self)) self
    else self in
  Model_save no_kwargs self.

End Product.

(** ** class LineItem *)

Module LineItem.

Definition set_quantity (q : Z) (self : line_item) : line_item :=
  LineItem_ (li_pk self) (li_product_id self) (li_product_cache self) q
    (li_price self) (li_cart self) (li_order self).

Definition set_price (p : Z) (self : line_item) : line_item :=
  LineItem_ (li_pk self) (li_product_id self) (li_product_cache self)
    (li_quantity self) p (li_cart self) (li_order self).

Definition set_product_cache (p : option product) (self : line_item) : line_item :=
  LineItem_ (li_pk self) (li_product_id self) p (li_quantity self)
    (li_price self) (li_cart self) (li_order self).

(** [li.order = order; li.cart = None] *)
Definition set_order_cart (o c : option nat) (self : line_item) : line_item :=
  LineItem_ (li_pk self) (li_product_id self) (li_product_cache self)
    (li_quantity self) (li_price self) c o.

(** The attribute [self.product]: the cached object, else the product
    row of [product_id], which the instance then caches. *)
Definition related_product (self : line_item) : M (product * line_item) :=
  match li_product_cache self with
  | Some p => ret (p, self)
  | None =>
      λ w, match rows (products w) !! li_product_id self with
           | Some r =>
               let p := from_db (li_product_id self, r) in
               (Ok (p, set_product_cache (Some p) self), w)
           | None => (Raise DoesNotExist, w)
           end
  end.

Definition save_with (kwargs : save_kwargs) (self : line_item) : M line_item :=
  let self :=
    if decide (li_quantity self < 1000) then set_quantity 1000 self else self in
  pself <-- related_product self ;;
  let self := set_price (product_price pself.1 * li_quantity pself.2) pself.2 in
  Model_save kwargs self.

Definition save : line_item → M line_item := save_with no_kwargs.

Definition delete : line_item → M unit := Model_delete.

(** [LineItem.objects.filter(cart=cart)] *)
Definition filter_cart (cart : cart) (w : world) : list line_item :=
  filter (λ li, related_exact (li_cart li) (cart_pk cart)) (objects_all w).

(** [LineItem.objects.filter(order=order)] *)
Definition filter_order (order : order) (w : world) : list line_item :=
  filter (λ li, related_exact (li_order li) (order_pk order)) (objects_all w).

(** [LineItem.objects.filter(product=product, cart=cart)] *)
Definition filter_product_cart (product : product) (cart : cart) (w : world)
    : list line_item :=
  filter (λ li, related_exact (Some (li_product_id li)) (product_pk product)
                ∧ related_exact (li_cart li) (cart_pk cart))
         (objects_all w).

(** [LineItem.objects.create(product=product, cart=cart)]: quantity has
    its default 1000, price is unset until [save] computes it.  Saving
    an instance that refers to an unsaved object is refused. *)
Definition create (product : product) (cart : cart) : M line_item :=
  match product_pk product, cart_pk cart with
  | Some p, Some c =>
      save (LineItem_ None p (Some product) 1000 0 (Some c) None)
  | _, _ => raise ValueError
  end.

(** [LineItem.objects.get_or_create(product=product, cart=cart)] *)
Definition get_or_create (product : product) (cart : cart)
    : M (line_item * bool) :=
  λ w, match filter_product_cart product cart w with
       | [] => (li <-- create product cart ;; ret (li, true)) w
       | [li] => (Ok (li, false), w)
       | _ :: _ :: _ => (Raise MultipleObjectsReturned, w)
       end.

(** [LineItem.objects.update_or_create(product=product, cart=cart)]:
    with no [defaults], the row found is saved with an empty
    [update_fields]. *)
Definition update_or_create (product : product) (cart : cart)
    : M (line_item * bool) :=
  r <-- get_or_create product cart ;;
  if r.2 : bool then ret r
  else li <-- save_with update_fields_empty r.1 ;; ret (li, false).

End LineItem.

(** ** class Comment *)

Module Comment.

(** [Comment.objects.create(content=content, order=order)] *)
Definition create (content : string) (order : order) : M comment :=
  match order_pk order with
  | Some o => Model_save no_kwargs (Comment_ None content (Some o))
  | None => raise ValueError
  end.

Definition save : comment → M comment := Model_save no_kwargs.

End Comment.

(** ** ventashop/utils.py: unique_ref_number_generator *)

(** Modelled from the spec: ventashop/utils.py is not among the sources.
    Reference-number generation is a uniqueness-checked string utility:
    random strings are drawn until one is the ref_number of no order.
    [first_unused] is that search over the supply of random strings. *)
Fixpoint first_unused (used draws : list string) : option (string * list string) :=
  match draws with
  | [] => None
  | r :: rest =>
      if decide (r ∈ used) then first_unused used rest else Some (r, rest)
  end.

Definition set_random_refs (l : list string) (w : world) : world :=
  World (products w) (carts w) (orders w) (comments w) (line_items w) l.

(** Modelled from the spec: the generator returns the first random string
    that no order uses as ref_number; a supply that runs out stands for a
    search that does not end. *)
Definition unique_ref_number_generator (instance : order) : M string :=
  λ w, match first_unused (order_ref_number <$> objects_all w) (random_refs w) with
       | Some (r, rest) => (Ok r, set_random_refs rest w)
       | None => (Raise RecursionError, set_random_refs [] w)
       end.

(** ** class Order *)

Module Order.

Definition NON_TRAITEE : string := "NT".

Definition set_total_price (t : Z) (self : order) : order :=
  Order_ (order_pk self) (order_status self) t (order_vat_amount self)
    (order_incl_vat_price self) (order_ref_number self) (order_slug self)
    (order_customer_account self).

Definition set_vat (v : Z * Z) (self : order) : order :=
  Order_ (order_pk self) (order_status self) (order_total_price self) v.1 v.2
    (order_ref_number self) (order_slug self) (order_customer_account self).

Definition set_ref_number (r : string) (self : order) : order :=
  Order_ (order_pk self) (order_status self) (order_total_price self)
    (order_vat_amount self) (order_incl_vat_price self) r (order_slug self)
    (order_customer_account self).

Definition set_slug (s : string) (self : order) : order :=
  Order_ (order_pk self) (order_status self) (order_total_price self)
    (order_vat_amount self) (order_incl_vat_price self) (order_ref_number self)
    s (order_customer_account self).

Definition set_customer_account (a : option nat) (self : order) : order :=
  Order_ (order_pk self) (order_status self) (order_total_price self)
    (order_vat_amount self) (order_incl_vat_price self) (order_ref_number self)
    (order_slug self) a.

Definition calculate_total_price (self : order) : M order :=
  λ w, let total :=
         fold_left (λ acc li, acc + li_price li) (LineItem.filter_order self w) 0 in
       (Ok (set_total_price total self), w).

Definition add_comment (self : order) (content : string) : M unit :=
  comment <-- Comment.create content self ;;
  Comment.save comment ;;;
  ret tt.

Definition default_comment : string := "La commande vient d'être créée.".

Definition save `{Utils} (self : order) : M order :=
  self <-- (if decide (order_ref_number self = EmptyString)
            then r <-- unique_ref_number_generator self ;;
                 ret (set_ref_number r self)
            else ret self) ;;
  let self :=
    if decide (order_slug self = EmptyString)
    then set_slug (slugify (order_ref_number self)) self
    else self in
  self <-- calculate_total_price self ;;
  let self := set_vat (get_VAT_prices (order_total_price self)) self in
  Model_save no_kwargs self.

(** [Order.objects.create()]: every field at its default. *)
Definition create `{Utils} : M order :=
  save (Order_ None NON_TRAITEE 0 0 0 EmptyString EmptyString None).

End Order.

(** ** class Cart *)

Module Cart.

Definition set_total_price (t : Z) (self : cart) : cart :=
  Cart_ (cart_pk self) t (cart_customer_account self).

Definition calculate_total_price (self : cart) : M cart :=
  λ w, let total :=
         fold_left (λ acc li, acc + li_price li) (LineItem.filter_cart self w) 0 in
       (Ok (set_total_price total self), w).

Definition save (self : cart) : M cart :=
  self <-- calculate_total_price self ;;
  Model_save no_kwargs self.

(** The related manager [self.lineitem_set.all()]; an unsaved cart has
    none. *)
Definition lineitem_set (self : cart) : M (list line_item) :=
  match cart_pk self with
  | None => raise ValueError
  | Some _ => λ w, (Ok (LineItem.filter_cart self w), w)
  end.

Definition add_line_item (self : cart) (product : product) (quantity : Z)
    : M cart :=
  r <-- LineItem.get_or_create product self ;;
  let li := r.1 in
  if negb r.2 then
    let li := LineItem.set_quantity (li_quantity li + quantity) li in
    LineItem.save li ;;;
    save self
  else if decide (quantity < 1000) then
    LineItem.delete li ;;;
    ret self
  else
    let li := LineItem.set_quantity quantity li in
    LineItem.save li ;;;
    save self.

Definition update_line_item (self : cart) (product : product) (quantity : Z)
    : M cart :=
  if decide (quantity < 1000) then ret self
  else
    r <-- LineItem.update_or_create product self ;;
    let li := LineItem.set_quantity quantity r.1 in
    LineItem.save li ;;;
    save self.

Definition remove_line_item (self : cart) (line_item : line_item) : M cart :=
  LineItem.delete line_item ;;;
  save self.

Definition empty_cart (self : cart) : M cart :=
  items <-- lineitem_set self ;;
  for_each (λ li _, LineItem.delete li) items tt ;;;
  save self.

(** Returns the cart as the call leaves it, and the order ([None] when
    the call aborts). *)
Definition make_order `{Utils} (self : cart) : M (cart * option order) :=
  if decide (cart_total_price self = 0) then ret (self, None)
  else
    order <-- Order.create ;;
    Order.add_comment order Order.default_comment ;;;
    let order := Order.set_customer_account (cart_customer_account self) order in
    items <-- lineitem_set self ;;
    for_each (λ li _,
                let li := LineItem.set_order_cart (order_pk order) None li in
                LineItem.save li ;;; ret tt) items tt ;;;
    order <-- Order.save order ;;
    self <-- save self ;;
    ret (self, Some order).

End Cart.

(** ** Specification vocabulary *)

(** The sum of the price fields of a list of line items. *)
Definition total_of (l : list line_item) : Z :=
  foldr (λ li acc, li_price li + acc) 0 l.

(** The line items attached to the cart, respectively the order, of key [k]. *)
Definition items_of_cart (k : nat) (w : world) : list line_item :=
  filter (λ li, li_cart li = Some k) (objects_all w).

Definition items_of_order (k : nat) (w : world) : list line_item :=
  filter (λ li, li_order li = Some k) (objects_all w).

(** The line items attached to no cart, respectively to no order: what
    the related filter of an unsaved cart, respectively order, selects. *)
Definition items_without_cart (w : world) : list line_item :=
  filter (λ li, li_cart li = None) (objects_all w).

Definition items_without_order (w : world) : list line_item :=
  filter (λ li, li_order li = None) (objects_all w).

(** Every key of the table was issued by its sequence. *)
Definition table_wf {A} (t : table A) : Prop :=
  ∀ k x, rows t !! k = Some x → (k < next_pk t)%nat.

(** A Hoare triple for [M]: from a database satisfying [P], [c] returns a
    value and a database satisfying [Q], or raises leaving a database
    satisfying [E]. *)
Definition hoare {A} (P : world → Prop) (c : M A)
    (Q : A → world → Prop) (E : world → Prop) : Prop :=
  ∀ w, P w → match c w with
             | (Ok a, w') => Q a w'
             | (Raise _, w') => E w'
             end.

(** The product object [self.product] denotes: the cached one, else the
    row of [product_id]. *)
Definition current_product (self : line_item) (w : world) : option product :=
  match li_product_cache self with
  | Some p => Some p
  | None =>
      (λ r, from_db (li_product_id self, r))
        <$> rows (products w) !! li_product_id self
  end.

(** The instance [LineItem.save] leaves, given the product it priced the
    line with and the primary key the instance ends up with. *)
Definition LineItem_saved (p : product) (k : option nat) (self : line_item)
    : line_item :=
  LineItem_ k (li_product_id self) (Some p) (Z.max (li_quantity self) 1000)
    (product_price p * Z.max (li_quantity self) 1000)
    (li_cart self) (li_order self).

(** A property of every persisted line item. *)
Definition li_all (P : line_item → Prop) (w : world) : Prop :=
  ∀ j r, rows (line_items w) !! j = Some r → P r.

(** *** The footprint of the cart operations

    Relative to the database [w0] an operation started from, the rows a
    cart of primary key [c] may write or delete are its own ([owned]):
    the line items its related filter selects in [w0] and those created
    since.  What it writes there ([written]) has a quantity of at least
    1000 and is attached either to the cart, with the order it had (none,
    for a line a saved cart has created), or to no cart and an order
    created since.  [D] names further keys that may be deleted. *)
Definition owned (c : option nat) (w0 : world) (j : nat) : Prop :=
  (∃ r0, rows (line_items w0) !! j = Some r0 ∧ li_cart r0 = c)
  ∨ (next_pk (line_items w0) ≤ j)%nat.

Definition links_ok (c : option nat) (w0 : world) (j : nat)
    (car ord : option nat) : Prop :=
  (car = c ∧
   ((is_Some c ∧ ord = None) ∨
    ∃ r0, rows (line_items w0) !! j = Some r0 ∧ li_cart r0 = c
          ∧ ord = li_order r0))
  ∨ (car = None ∧ ∃ k, ord = Some k ∧ (next_pk (orders w0) ≤ k)%nat).

Definition written (c : option nat) (w0 : world) (j : nat) (r : line_item) : Prop :=
  1000 ≤ li_quantity r ∧ links_ok c w0 j (li_cart r) (li_order r).

Definition footprint (c : option nat) (D : nat → Prop) (w0 w : world) : Prop :=
  (table_wf (line_items w0) → table_wf (line_items w)) ∧
  (next_pk (line_items w0) ≤ next_pk (line_items w))%nat ∧
  (next_pk (orders w0) ≤ next_pk (orders w))%nat ∧
  (∀ k, (k < next_pk (orders w0))%nat →
        rows (orders w) !! k = rows (orders w0) !! k) ∧
  (∀ j, rows (line_items w) !! j = rows (line_items w0) !! j
        ∨ (D j ∧ rows (line_items w) !! j = None)
        ∨ (owned c w0 j ∧
           ∀ r, rows (line_items w) !! j = Some r → written c w0 j r)).

(** A line item instance the cart may save or delete: its row is owned,
    its cart and order fields are as [written] asks. *)
Definition savable (c : option nat) (w0 : world) (li : line_item) : Prop :=
  ∀ j, match li_pk li with
       | Some j' => j = j'
       | None => (next_pk (line_items w0) ≤ j)%nat
       end →
       owned c w0 j ∧ links_ok c w0 j (li_cart li) (li_order li).

(** [Order.save] once the reference number is settled: slug, total, VAT
    amounts, then the write. *)
Definition Order_persist `{Utils} (self : order) (w : world) : result order * world :=
  let self1 :=
    if decide (order_slug self = EmptyString)
    then Order.set_slug (slugify (order_ref_number self)) self
    else self in
  let self2 :=
    Order.set_total_price (total_of (LineItem.filter_order self1 w)) self1 in
  let self3 := Order.set_vat (get_VAT_prices (order_total_price self2)) self2 in
  let k := default (next_pk (orders w)) (order_pk self) in
  (Ok (set_pk k self3),
   set_objects (table_insert k (set_pk k self3) (orders w)) w).

(** ** The operations of the program *)

Inductive operation :=
  | op_Product_save (self : product)
  | op_Cart_save (self : cart)
  | op_Order_save (self : order)
  | op_LineItem_save (self : line_item)
  | op_add_line_item (self : cart) (product : product) (quantity : Z)
  | op_update_line_item (self : cart) (product : product) (quantity : Z)
  | op_remove_line_item (self : cart) (line_item : line_item)
  | op_empty_cart (self : cart)
  | op_make_order (self : cart).

(** The database an operation leaves, whether it returns or raises. *)
Definition perform `{Utils} (op : operation) (w : world) : world :=
  match op with
  | op_Product_save self => (Product.save self w).2
  | op_Cart_save self => (Cart.save self w).2
  | op_Order_save self => (Order.save self w).2
  | op_LineItem_save self => (LineItem.save self w).2
  | op_add_line_item self product quantity =>
      (Cart.add_line_item self product quantity w).2
  | op_update_line_item self product quantity =>
      (Cart.update_line_item self product quantity w).2
  | op_remove_line_item self line_item =>
      (Cart.remove_line_item self line_item w).2
  | op_empty_cart self => (Cart.empty_cart self w).2
  | op_make_order self => (Cart.make_order self w).2
  end.

(** The databases reached from [init] by operations among [allowed]. *)
Inductive reachable `{Utils} (init : world) (allowed : operation → Prop)
    : world → Prop :=
  | reachable_init : reachable init allowed init
  | reachable_step w op :
      reachable init allowed w → allowed op →
      reachable init allowed (perform op w).

(** Every operation but the bare save of a line item instance: the cart
    operations, and the saves of products, carts and orders. *)
Definition cart_level (op : operation) : Prop :=
  match op with
  | op_LineItem_save _ => False
  | _ => True
  end.

Definition any_operation (op : operation) : Prop := True.

(** A database with no rows; the sequences start at 1. *)
Definition empty_db (refs : list string) : world :=
  World (Table ∅ 1) (Table ∅ 1) (Table ∅ 1) (Table ∅ 1) (Table ∅ 1) refs.

(** A line item attached to exactly one of a cart and an order. *)
Definition exactly_one (li : line_item) : Prop :=
  (is_Some (li_cart li) ∧ li_order li = None)
  ∨ (li_cart li = None ∧ is_Some (li_order li)).

Definition min_quantity (li : line_item) : Prop := 1000 ≤ li_quantity li.

(** The cart an operation works for, and the row it deletes by name. *)
Definition op_cart (op : operation) : option nat :=
  match op with
  | op_add_line_item self _ _ | op_update_line_item self _ _
  | op_remove_line_item self _ | op_empty_cart self | op_make_order self =>
      cart_pk self
  | _ => None
  end.

Definition op_deletes (op : operation) (j : nat) : Prop :=
  match op with
  | op_remove_line_item _ line_item => li_pk line_item = Some j
  | _ => False
  end.

(** ** A sample shop, for concrete runs *)

(** A stand-in for the imported functions: slugs as given, VAT at 20 %. *)
Definition sample_utils : Utils :=
  {| slugify s := s; get_VAT_prices t := (t / 5, t + t / 5) |}.

Definition widget : product := Product_ (Some 1%nat) "Widget" "widget" 250.
Definition basket : cart := Cart_ (Some 1%nat) 0 None.

(** A widget at 2.50 and an empty cart. *)
Definition shop_open : world :=
  @perform sample_utils (op_Cart_save (Cart_ None 0 None))
    (@perform sample_utils (op_Product_save (Product_ None "Widget" "widget" 250))
       (empty_db ["ref-a"; "ref-b"; "ref-c"]%string)).

(** The cart holds 1000 widgets, 2500.00 in all. *)
Definition shop_one_line : world :=
  @perform sample_utils (op_add_line_item basket widget 1000) shop_open.

Definition basket_filled : cart := Cart_ (Some 1%nat) 250000 None.

(** ** Persisted totals *)

(** The instance is the row of its key, and its total_price is the sum of
    the prices of the line items attached to it. *)
Definition cart_total_persisted (self : cart) (w : world) : Prop :=
  ∃ c, cart_pk self = Some c ∧ rows (carts w) !! c = Some self ∧
       cart_total_price self = total_of (items_of_cart c w).

Definition order_total_persisted (self : order) (w : world) : Prop :=
  ∃ k, order_pk self = Some k ∧ rows (orders w) !! k = Some self ∧
       order_total_price self = total_of (items_of_order k w).

(** No line item refers to an order key the sequence has not issued. *)
Definition order_keys_issued (w : world) : Prop :=
  ∀ j x k, rows (line_items w) !! j = Some x → li_order x = Some k →
           (k < next_pk (orders w))%nat.

(** ** Checkout *)

(** The row [make_order] leaves for a line item of the cart: attached to
    the order of key [k] and to no cart, its quantity clamped, priced at
    the unit price its product has in [w]. *)
Definition checked_out (w : world) (k : nat) (x : line_item) : line_item :=
  let unit_price :=
    default 0 (product_price <$> rows (products w) !! li_product_id x) in
  LineItem_ (li_pk x) (li_product_id x) None (Z.max (li_quantity x) 1000)
    (unit_price * Z.max (li_quantity x) 1000) None (Some k).

(** A line item whose stored quantity and price are what a save would
    make them now. *)
Definition up_to_date (w : world) (x : line_item) : Prop :=
  ∃ p, rows (products w) !! li_product_id x = Some p ∧
       1000 ≤ li_quantity x ∧ li_price x = product_price p * li_quantity x.

(** The widget now costs 3.00; the line in the cart is still priced at
    2.50 a piece. *)
Definition shop_repriced : world :=
  @perform sample_utils
    (op_Product_save (Product_ (Some 1%nat) "Widget" "widget" 300))
    shop_one_line.

(** ** The snapshot an order is *)

(** Between [w] and [w'], the order of key [k] has kept its total_price
    and its line items, row for row. *)
Definition order_snapshot_kept (k : nat) (w w' : world) : Prop :=
  order_total_price <$> rows (orders w') !! k
    = order_total_price <$> rows (orders w) !! k ∧
  ∀ j x, li_order x = Some k →
         (rows (line_items w') !! j = Some x ↔ rows (line_items w) !! j = Some x).

(** The operations that spare the order of key [k]: the cart operations
    on saved carts ([remove_line_item] unless it is handed one of the
    order's line items) and the saves of products, carts and orders; not
    the save of a line item instance. *)
Definition spares (k : nat) (w : world) (op : operation) : Prop :=
  match op with
  | op_LineItem_save _ => False
  | op_remove_line_item self line_item =>
      is_Some (cart_pk self) ∧
      ∀ j x, li_pk line_item = Some j → rows (line_items w) !! j = Some x →
             li_order x ≠ Some k
  | op_add_line_item self _ _ | op_update_line_item self _ _
  | op_empty_cart self | op_make_order self => is_Some (cart_pk self)
  | _ => True
  end.

Fixpoint perform_all `{Utils} (ops : list operation) (w : world) : world :=
  match ops with
  | [] => w
  | op :: ops' => perform_all ops' (perform op w)
  end.

Fixpoint all_spare `{Utils} (k : nat) (ops : list operation) (w : world) : Prop :=
  match ops with
  | [] => True
  | op :: ops' => spares k w op ∧ all_spare k ops' (perform op w)
  end.

(** What holds of an order [make_order] has returned, and keeps holding:
    its key was issued, its line items are in no cart, and its persisted
    total_price is their sum. *)
Definition order_settled (k : nat) (w : world) : Prop :=
  table_wf (line_items w) ∧
  (k < next_pk (orders w))%nat ∧
  (∀ j x, rows (line_items w) !! j = Some x → li_order x = Some k →
          li_cart x = None) ∧
  ∃ o, rows (orders w) !! k = Some o ∧
       order_total_price o = total_of (items_of_order k w).

(** The order made from the sample cart, and what follows it in the
    counterexample to immutability: the widget is repriced, the order's
    line item is saved again, then the order. *)
Definition shop_ordered : world :=
  @perform sample_utils (op_make_order basket_filled) shop_one_line.

Definition ordered_line : line_item :=
  LineItem_ (Some 1%nat) 1 None 1000 250000 None (Some 1%nat).

Definition the_order : order :=
  Order_ (Some 1%nat) "NT" 250000 50000 300000 "ref-a" "ref-a" None.

Definition shop_order_resaved : world :=
  @perform sample_utils (op_Order_save the_order)
    (@perform sample_utils (op_LineItem_save ordered_line)
       (@perform sample_utils
          (op_Product_save (Product_ (Some 1%nat) "Widget" "widget" 300))
          shop_ordered)).


(** ** class CustomerAccount *)

(** An instance of CustomerAccount, as far as [create_cart] uses it: its
    primary key, and the cache of the reverse one-to-one accessor
    [self.cart] (not looked up yet, looked up and absent, or the cart
    object). *)
Record customer_account := CustomerAccount_ {
  ca_pk : option nat;
  ca_cart_cache : option (option cart);
}.

Module CustomerAccount.

Definition set_cart_cache (c : option cart) (self : customer_account)
    : customer_account :=
  CustomerAccount_ (ca_pk self) (Some c).

(** [Cart.objects.filter(customer_account=account)], for the saved
    account of key [a] *)
Definition filter_cart (a : nat) (w : world) : list cart :=
  filter (λ c, cart_customer_account c = Some a) (objects_all w).

(** The attribute [self.cart]: the cached answer, else, for a saved
    account, the one cart of the account; the answer is cached with the
    instance, also when there is no cart.  The database is only read. *)
Definition related_cart (self : customer_account) (w : world)
    : result cart * customer_account :=
  match ca_cart_cache self with
  | Some (Some c) => (Ok c, self)
  | Some None => (Raise DoesNotExist, self)
  | None =>
      match ca_pk self with
      | None => (Raise DoesNotExist, set_cart_cache None self)
      | Some a =>
          match filter_cart a w with
          | [] => (Raise DoesNotExist, set_cart_cache None self)
          | [c] => (Ok c, set_cart_cache (Some c) self)
          | _ :: _ :: _ => (Raise MultipleObjectsReturned, self)
          end
      end
  end.

(** [Cart.objects.create(customer_account=self)]: the new cart object
    becomes the cached [self.cart]; [Cart.save] computes the total, then
    the save is refused for an unsaved account. *)
Definition Cart_create (self : customer_account) : M customer_account :=
  match ca_pk self with
  | None => raise ValueError
  | Some a =>
      c <-- Cart.save (Cart_ None 0 (Some a)) ;;
      ret (set_cart_cache (Some c) self)
  end.

(** [create_cart]: of the exceptions of [self.cart] only
    ObjectDoesNotExist is caught.  Returns the instance as the call
    leaves it. *)
Definition create_cart (self : customer_account) : M customer_account :=
  λ w, match related_cart self w with
       | (Ok _, self) => (Ok self, w)
       | (Raise DoesNotExist, self) => Cart_create self w
       | (Raise e, _) => (Raise e, w)
       end.

End CustomerAccount.

(** ** More specification vocabulary *)

(** The row a cart of key [c] gets for a product of key [p] it does not
    hold yet, at quantity [q]. *)
Definition new_line (w : world) (product : product) (p c : nat) (q : Z)
    : line_item :=
  LineItem_ (Some (next_pk (line_items w))) p None q (product_price product * q)
    (Some c) None.

(** The row [LineItem.save] writes for the line [li] of key [j], at
    quantity [q] of a product whose row is [pr]. *)
Definition saved_line (li : line_item) (j : nat) (pr : product) (q : Z)
    : line_item :=
  LineItem_ (Some j) (li_product_id li) None q (product_price pr * q)
    (li_cart li) (li_order li).

(** The comment [add_comment] leaves with the order of key [k]. *)
Definition new_comment (w : world) (content : string) (k : nat) : comment :=
  Comment_ (Some (next_pk (comments w))) content (Some k).

(** The cart [create_cart] makes for the account of key [a]. *)
Definition new_cart (w : world) (a : nat) : cart :=
  Cart_ (Some (next_pk (carts w))) (total_of (items_without_cart w)) (Some a).

(** No two line items of one cart are for the same product. *)
Definition one_line_per_product (w : world) : Prop :=
  ∀ j1 j2 r1 r2,
    rows (line_items w) !! j1 = Some r1 →
    rows (line_items w) !! j2 = Some r2 →
    is_Some (li_cart r1) →
    li_cart r1 = li_cart r2 → li_product_id r1 = li_product_id r2 →
    j1 = j2.

(** The instance [li] is the only line of its cart for its product: a
    row with its cart and its product has its primary key. *)
Definition placed (li : line_item) (w : world) : Prop :=
  is_Some (li_cart li) →
  ∀ j r, rows (line_items w) !! j = Some r →
         li_cart r = li_cart li → li_product_id r = li_product_id li →
         li_pk li = Some j.

(** No line item refers to a cart key the sequence has not issued. *)
Definition cart_keys_issued (w : world) : Prop :=
  ∀ j x c, rows (line_items w) !! j = Some x → li_cart x = Some c →
           (c < next_pk (carts w))%nat.

(** ** More of the sample shop *)

(** A second line for the widget in the sample cart, put there by a bare
    save of a line item. *)
Definition shop_two_lines : world :=
  @perform sample_utils
    (op_LineItem_save (LineItem_ None 1 None 1000 0 (Some 1%nat) None))
    shop_one_line.

(** A saved customer account, freshly loaded. *)
Definition customer : customer_account := CustomerAccount_ (Some 1%nat) None.

(** ** The logic of [M] *)

Lemma hoare_ret {A} (P : world → Prop) (a : A) (Q : A → world → Prop) E :
  (∀ w, P w → Q a w) → hoare P (ret a) Q E.
Proof. intros HQ w Hw. simpl. auto. Qed.

Lemma hoare_raise {A} (P : world → Prop) e (Q : A → world → Prop) (E : world → Prop) :
  (∀ w, P w → E w) → hoare P (raise e) Q E.
Proof. intros HE w Hw. simpl. auto. Qed.

Lemma hoare_bind {A B} (P : world → Prop) (c : M A) (k : A → M B)
    (R : A → world → Prop) (Q : B → world → Prop) E :
  hoare P c R E → (∀ a, hoare (R a) (k a) Q E) → hoare P (bind c k) Q E.
Proof.
  intros Hc Hk w Hw. unfold bind. specialize (Hc w Hw).
  destruct (c w) as [[a|e] w']; [by apply Hk | done].
Qed.

Lemma hoare_weaken {A} (P P' : world → Prop) (c : M A)
    (Q Q' : A → world → Prop) (E E' : world → Prop) :
  hoare P' c Q' E' →
  (∀ w, P w → P' w) → (∀ a w, Q' a w → Q a w) → (∀ w, E' w → E w) →
  hoare P c Q E.
Proof.
  intros Hc HP HQ HE w Hw. specialize (Hc w (HP w Hw)).
  destruct (c w) as [[a|e] w']; auto.
Qed.

Lemma hoare_for_each {A S} (body : A → S → M S) (I : S → world → Prop) E xs :
  (∀ x s, x ∈ xs → hoare (I s) (body x s) I E) →
  ∀ s, hoare (I s) (for_each body xs s) I E.
Proof.
  induction xs as [|x xs IH]; intros Hbody s.
  - by apply hoare_ret.
  - simpl. eapply hoare_bind.
    + apply Hbody. left.
    + intros s'. apply IH. intros y s'' Hy. apply Hbody. by right.
Qed.


(** ** Sums and queries *)

Lemma fold_left_total l a :
  fold_left (λ acc li, acc + li_price li) l a = a + total_of l.
Proof.
  revert a. induction l as [|x l IH]; intros a; simpl; [lia|].
  rewrite IH. lia.
Qed.

Lemma total_of_cons x l : total_of (x :: l) = li_price x + total_of l.
Proof. reflexivity. Qed.

Lemma total_of_perm l l' : l ≡ₚ l' → total_of l = total_of l'.
Proof. induction 1; simpl; lia. Qed.

Lemma elem_of_objects_all {A} `{Model A} (w : world) (x : A) :
  x ∈ objects_all w ↔
  ∃ j r, rows (objects w) !! j = Some r ∧ x = from_db (j, r).
Proof.
  unfold objects_all. rewrite list_elem_of_fmap. split.
  - intros [[j r] [-> Hin]]. apply elem_of_map_to_list in Hin. eauto.
  - intros (j & r & Hr & ->). exists (j, r). split; [done|].
    by apply elem_of_map_to_list.
Qed.

Lemma elem_of_line_items (w : world) (x : line_item) :
  x ∈ objects_all w ↔
  ∃ j r, rows (line_items w) !! j = Some r ∧ x = from_db (j, r).
Proof. exact (elem_of_objects_all w x). Qed.

Lemma NoDup_line_items (w : world) : NoDup (objects_all (A:=line_item) w).
Proof.
  unfold objects_all. apply NoDup_fmap_2_strong; [|apply NoDup_map_to_list].
  intros [j r] [j' r'] Hin Hin' Heq.
  assert (j = j') as <- by (by injection Heq).
  apply elem_of_map_to_list in Hin, Hin'. congruence.
Qed.

(** ** [LineItem.save], in closed form *)

Lemma LineItem_save_eq (self : line_item) (w : world) :
  LineItem.save self w =
  match current_product self w with
  | Some p =>
      let k := default (next_pk (line_items w)) (li_pk self) in
      let self' := LineItem_saved p (Some k) self in
      (Ok self', set_objects (table_insert k (to_row self') (line_items w)) w)
  | None => (Raise DoesNotExist, w)
  end.
Proof.
  unfold LineItem.save, LineItem.save_with, bind, LineItem.related_product,
    current_product, LineItem_saved.
  destruct self as [pk id cache q pr c o]; simpl.
  destruct cache as [p|]; simpl.
  - case_decide; simpl; [rewrite Z.max_r by lia | rewrite Z.max_l by lia];
      reflexivity.
  - case_decide; simpl; destruct (rows (products w) !! id) as [r|]; simpl;
      try reflexivity.
    + rewrite Z.max_r by lia. reflexivity.
    + rewrite Z.max_l by lia. reflexivity.
Qed.

Lemma LineItem_save_empty_eq (self : line_item) (w : world) :
  LineItem.save_with update_fields_empty self w =
  match current_product self w with
  | Some p => (Ok (LineItem_saved p (li_pk self) self), w)
  | None => (Raise DoesNotExist, w)
  end.
Proof.
  unfold LineItem.save_with, bind, LineItem.related_product,
    current_product, LineItem_saved.
  destruct self as [pk id cache q pr c o]; simpl.
  destruct cache as [p|]; simpl.
  - case_decide; simpl; [rewrite Z.max_r by lia | rewrite Z.max_l by lia];
      reflexivity.
  - case_decide; simpl; destruct (rows (products w) !! id) as [r|]; simpl;
      try reflexivity.
    + rewrite Z.max_r by lia. reflexivity.
    + rewrite Z.max_l by lia. reflexivity.
Qed.

(** ** The footprint is kept by every step of a cart operation *)

Lemma footprint_refl c D w0 : footprint c D w0 w0.
Proof. repeat split; auto. Qed.

Lemma footprint_write c D w0 w j r :
  footprint c D w0 w → owned c w0 j → written c w0 j r →
  footprint c D w0 (set_objects (table_insert j r (line_items w)) w).
Proof.
  intros (Hwf & Hn & Hno & Ho & Hli) Hown Hwr.
  split; [|repeat split; simpl; auto; [lia|]].
  { intros Hwf0 j' r'. simpl. specialize (Hwf Hwf0).
    destruct (decide (j' = j)) as [->|Hne]; [lia|].
    rewrite lookup_insert_ne by done. intros Hr'. specialize (Hwf _ _ Hr'). lia. }
  intros j'. destruct (decide (j' = j)) as [->|Hne].
  - right; right. split; [done|]. intros r'. rewrite lookup_insert_eq.
    by intros [= <-].
  - rewrite lookup_insert_ne by done. apply Hli.
Qed.

Lemma footprint_delete_owned c D w0 w j :
  footprint c D w0 w → owned c w0 j →
  footprint c D w0 (set_objects (table_delete j (line_items w)) w).
Proof.
  intros (Hwf & Hn & Hno & Ho & Hli) Hown.
  split; [|repeat split; simpl; auto].
  { intros Hwf0 j' r'. simpl. intros [_ Hr']%lookup_delete_Some. by apply (Hwf Hwf0 j' r'). }
  intros j'. destruct (decide (j' = j)) as [->|Hne].
  - right; right. split; [done|]. intros r'. by rewrite lookup_delete_eq.
  - rewrite lookup_delete_ne by done. apply Hli.
Qed.

Lemma footprint_delete_named c (D : nat → Prop) w0 w j :
  footprint c D w0 w → D j →
  footprint c D w0 (set_objects (table_delete j (line_items w)) w).
Proof.
  intros (Hwf & Hn & Hno & Ho & Hli) HD.
  split; [|repeat split; simpl; auto].
  { intros Hwf0 j' r'. simpl. intros [_ Hr']%lookup_delete_Some. by apply (Hwf Hwf0 j' r'). }
  intros j'. destruct (decide (j' = j)) as [->|Hne].
  - right; left. split; [done|]. by rewrite lookup_delete_eq.
  - rewrite lookup_delete_ne by done. apply Hli.
Qed.

Lemma hoare_LineItem_save_with kw c D w0 li :
  savable c w0 li →
  hoare (footprint c D w0) (LineItem.save_with kw li)
    (λ li' w, footprint c D w0 w ∧ savable c w0 li'
              ∧ li_cart li' = li_cart li ∧ li_order li' = li_order li)
    (footprint c D w0).
Proof.
  intros Hsav w Hfp. destruct kw.
  - change (LineItem.save_with no_kwargs) with LineItem.save.
    rewrite LineItem_save_eq. destruct (current_product li w) as [p|]; [|done].
    simpl.
    assert (Hk : match li_pk li with
                 | Some j' => default (next_pk (line_items w)) (li_pk li) = j'
                 | None => (next_pk (line_items w0)
                             ≤ default (next_pk (line_items w)) (li_pk li))%nat
                 end).
    { destruct (li_pk li); simpl; [done|]. apply Hfp. }
    destruct (Hsav _ Hk) as [Hown Hlinks].
    split; [|split; [|eauto]].
    + apply footprint_write; [done..|]. split; simpl; [lia|done].
    + intros j ->. simpl. done.
  - rewrite LineItem_save_empty_eq. destruct (current_product li w) as [p|]; [|done].
    split; [done|]. split; [|simpl; repeat split; auto; congruence].
    intros j Hj. simpl in *. by apply Hsav.
Qed.

Lemma filter_cart_savable c D w0 w self x :
  cart_pk self = c → footprint c D w0 w →
  x ∈ LineItem.filter_cart self w →
  savable c w0 x ∧ related_exact (li_cart x) c.
Proof.
  intros <- (Hwf & Hn & Hno & Ho & Hli) Hx.
  apply list_elem_of_filter in Hx as [Hc Hx].
  apply elem_of_line_items in Hx as (j & r & Hr & ->). simpl in *.
  split; [|done]. intros j' ->. simpl.
  destruct (Hli j) as [Heq|[[_ HD]|[Hown Hwr]]].
  - rewrite Hr in Heq. split; [left; eauto|]. left. split; [done|]. right. eauto.
  - congruence.
  - split; [done|]. by apply (Hwr r Hr).
Qed.

Lemma filter_product_cart_sub product self w x :
  x ∈ LineItem.filter_product_cart product self w →
  x ∈ LineItem.filter_cart self w.
Proof.
  unfold LineItem.filter_product_cart, LineItem.filter_cart.
  rewrite !list_elem_of_filter. tauto.
Qed.

Lemma hoare_get_or_create c D w0 product self :
  cart_pk self = c →
  hoare (footprint c D w0) (LineItem.get_or_create product self)
    (λ r w, footprint c D w0 w ∧ savable c w0 r.1)
    (footprint c D w0).
Proof.
  intros Hc w Hfp. unfold LineItem.get_or_create.
  destruct (LineItem.filter_product_cart product self w) as [|li [|li' l]] eqn:Hf.
  - revert w Hfp Hf. intros w Hfp _. revert w Hfp.
    change (hoare (footprint c D w0)
              (li <-- LineItem.create product self ;; ret (li, true))
              (λ r w, footprint c D w0 w ∧ savable c w0 r.1) (footprint c D w0)).
    eapply hoare_bind; [|intros li; apply hoare_ret; intros w Hw; exact Hw].
    unfold LineItem.create.
    destruct (product_pk product) as [p|]; [|by apply hoare_raise].
    destruct (cart_pk self) as [c'|] eqn:Hpk; [|by apply hoare_raise].
    subst c. eapply hoare_weaken; [apply (hoare_LineItem_save_with no_kwargs)|..];
      [|done|simpl; tauto|done].
    intros j Hj. simpl in *. split; [by right|]. left.
    split; [|by left]. split; eauto.
  - split; [done|]. simpl.
    eapply filter_cart_savable; [done..|].
    apply (filter_product_cart_sub product). rewrite Hf. left.
  - done.
Qed.

Lemma hoare_update_or_create c D w0 product self :
  cart_pk self = c →
  hoare (footprint c D w0) (LineItem.update_or_create product self)
    (λ r w, footprint c D w0 w ∧ savable c w0 r.1)
    (footprint c D w0).
Proof.
  intros Hc. unfold LineItem.update_or_create.
  eapply hoare_bind; [by apply hoare_get_or_create|].
  intros [li created]. simpl. destruct created.
  - apply hoare_ret. tauto.
  - apply (hoare_weaken _ (λ w, footprint c D w0 w ∧ savable c w0 li) _ _
             (λ r w, footprint c D w0 w ∧ savable c w0 r.1) _ (footprint c D w0));
      [|tauto|tauto|done].
    intros w [Hfp Hsav]. revert w Hfp.
    change (hoare (footprint c D w0)
      (li0 <-- LineItem.save_with update_fields_empty li ;; ret (li0, false))
      (λ r w, footprint c D w0 w ∧ savable c w0 r.1) (footprint c D w0)).
    eapply hoare_bind; [by apply hoare_LineItem_save_with|].
    intros li'. apply hoare_ret. simpl. tauto.
Qed.

Lemma savable_set_quantity c w0 q li :
  savable c w0 li → savable c w0 (LineItem.set_quantity q li).
Proof. done. Qed.

Lemma Cart_save_eq (self : cart) (w : world) :
  Cart.save self w =
  let self' := Cart.set_total_price (total_of (LineItem.filter_cart self w)) self in
  let k := default (next_pk (carts w)) (cart_pk self) in
  (Ok (set_pk k self'), set_objects (table_insert k (set_pk k self') (carts w)) w).
Proof.
  unfold Cart.save, bind, Cart.calculate_total_price, Model_save. simpl.
  rewrite fold_left_total. reflexivity.
Qed.

Lemma hoare_Cart_save c D w0 self :
  hoare (footprint c D w0) (Cart.save self)
    (λ _ w, footprint c D w0 w) (footprint c D w0).
Proof. intros w Hfp. rewrite Cart_save_eq. simpl. exact Hfp. Qed.

Lemma hoare_LineItem_delete c D w0 li :
  savable c w0 li →
  hoare (footprint c D w0) (LineItem.delete li)
    (λ _ w, footprint c D w0 w) (footprint c D w0).
Proof.
  intros Hsav. unfold LineItem.delete, Model_delete. simpl.
  destruct (li_pk li) as [j|] eqn:Hpk; [|by apply hoare_raise].
  intros w Hfp. apply footprint_delete_owned; [done|].
  apply (Hsav j). by rewrite Hpk.
Qed.

Lemma hoare_add_line_item c D w0 product quantity self :
  cart_pk self = c →
  hoare (footprint c D w0) (Cart.add_line_item self product quantity)
    (λ _ w, footprint c D w0 w) (footprint c D w0).
Proof.
  intros Hc. unfold Cart.add_line_item.
  eapply hoare_bind; [by apply hoare_get_or_create|].
  intros [li created]. simpl.
  apply (hoare_weaken _ (λ w, footprint c D w0 w ∧ savable c w0 li) _ _
           (λ _ w, footprint c D w0 w) _ (footprint c D w0));
    [|tauto|tauto|done].
  intros w [Hfp Hsav]. revert w Hfp.
  destruct created; simpl.
  - case_decide.
    + eapply hoare_bind; [by apply hoare_LineItem_delete|].
      intros ?. by apply hoare_ret.
    + eapply hoare_bind.
      * eapply hoare_weaken;
          [apply (hoare_LineItem_save_with no_kwargs c D w0);
           by apply savable_set_quantity|..];
          [done|intros ? ? Hw; exact (proj1 Hw)|done].
      * intros ?. apply hoare_Cart_save.
  - eapply hoare_bind.
    + eapply hoare_weaken;
        [apply (hoare_LineItem_save_with no_kwargs c D w0);
         by apply savable_set_quantity|..];
        [done|intros ? ? Hw; exact (proj1 Hw)|done].
    + intros ?. apply hoare_Cart_save.
Qed.

Lemma hoare_final {A} (P : world → Prop) (c : M A) (Q : world → Prop) w :
  hoare P c (λ _, Q) Q → P w → Q (c w).2.
Proof.
  intros Hc Hw. specialize (Hc w Hw). by destruct (c w) as [[a|e] w'].
Qed.

Lemma hoare_update_line_item c D w0 product quantity self :
  cart_pk self = c →
  hoare (footprint c D w0) (Cart.update_line_item self product quantity)
    (λ _ w, footprint c D w0 w) (footprint c D w0).
Proof.
  intros Hc. unfold Cart.update_line_item. case_decide; [by apply hoare_ret|].
  eapply hoare_bind; [by apply hoare_update_or_create|].
  intros [li created]. simpl.
  apply (hoare_weaken _ (λ w, footprint c D w0 w ∧ savable c w0 li) _ _
           (λ _ w, footprint c D w0 w) _ (footprint c D w0));
    [|tauto|tauto|done].
  intros w [Hfp Hsav]. revert w Hfp.
  eapply hoare_bind.
  - eapply hoare_weaken;
      [apply (hoare_LineItem_save_with no_kwargs c D w0); by apply savable_set_quantity|..];
      [done|intros ? ? Hw; exact (proj1 Hw)|done].
  - intros ?. apply hoare_Cart_save.
Qed.

Lemma hoare_remove_line_item c (D : nat → Prop) w0 line_item self :
  (∀ j, li_pk line_item = Some j → D j) →
  hoare (footprint c D w0) (Cart.remove_line_item self line_item)
    (λ _ w, footprint c D w0 w) (footprint c D w0).
Proof.
  intros HD. unfold Cart.remove_line_item.
  eapply hoare_bind; [|intros ?; apply hoare_Cart_save].
  unfold LineItem.delete, Model_delete. simpl.
  destruct (li_pk line_item) as [j|]; [|by apply hoare_raise].
  intros w Hfp. apply footprint_delete_named; auto.
Qed.

Lemma hoare_lineitem_set c D w0 self :
  cart_pk self = c →
  hoare (footprint c D w0) (Cart.lineitem_set self)
    (λ items w, footprint c D w0 w ∧
                ∀ x, x ∈ items → savable c w0 x ∧ related_exact (li_cart x) c)
    (footprint c D w0).
Proof.
  intros Hc. unfold Cart.lineitem_set.
  destruct (cart_pk self) as [k|] eqn:Hpk; [|by apply hoare_raise].
  intros w Hfp. split; [done|]. intros x Hx.
  eapply filter_cart_savable; [|done..]. congruence.
Qed.

Lemma hoare_empty_cart c D w0 self :
  cart_pk self = c →
  hoare (footprint c D w0) (Cart.empty_cart self)
    (λ _ w, footprint c D w0 w) (footprint c D w0).
Proof.
  intros Hc. unfold Cart.empty_cart.
  eapply hoare_bind; [by apply hoare_lineitem_set|].
  intros items. simpl.
  apply (hoare_weaken _
           (λ w, footprint c D w0 w ∧
                 ∀ x, x ∈ items → savable c w0 x ∧ related_exact (li_cart x) c) _ _
           (λ _ w, footprint c D w0 w) _ (footprint c D w0));
    [|tauto|tauto|done].
  intros w [Hfp Hitems]. revert w Hfp.
  eapply hoare_bind; [|intros ?; apply hoare_Cart_save].
  apply (hoare_for_each _ (λ _, footprint c D w0)).
  intros x [] Hx. apply hoare_LineItem_delete. by apply Hitems.
Qed.

(** ** [Order.save], in closed form *)

Lemma Order_save_eq `{Utils} (self : order) (w : world) :
  Order.save self w =
  if decide (order_ref_number self = EmptyString) then
    match first_unused (order_ref_number <$> objects_all w) (random_refs w) with
    | Some (r, rest) =>
        Order_persist (Order.set_ref_number r self) (set_random_refs rest w)
    | None => (Raise RecursionError, set_random_refs [] w)
    end
  else Order_persist self w.
Proof.
  unfold Order.save, bind, unique_ref_number_generator, Order_persist,
    Order.calculate_total_price, Model_save.
  case_decide.
  - destruct (first_unused _ _) as [[r rest]|]; [|done]. simpl.
    rewrite fold_left_total. case_decide; reflexivity.
  - simpl. rewrite fold_left_total. case_decide; reflexivity.
Qed.

Lemma footprint_Order_persist `{Utils} c D w0 w self :
  (∀ k, order_pk self = Some k → (next_pk (orders w0) ≤ k)%nat) →
  footprint c D w0 w →
  footprint c D w0 (Order_persist self w).2 ∧
  ∃ o k, (Order_persist self w).1 = Ok o ∧ order_pk o = Some k
         ∧ (next_pk (orders w0) ≤ k)%nat.
Proof.
  intros Hpk (Hwf & Hn & Hno & Ho & Hli). unfold Order_persist. simpl.
  set (k := default (next_pk (orders w)) (order_pk self)).
  assert (Hk : (next_pk (orders w0) ≤ k)%nat).
  { subst k. destruct (order_pk self) as [k'|]; simpl; [by apply Hpk|done]. }
  split; [|eauto 6].
  repeat split; simpl; auto; [lia|].
  intros k' Hk'. rewrite lookup_insert_ne by lia. by apply Ho.
Qed.

Lemma hoare_Order_save `{Utils} c D w0 self :
  (∀ k, order_pk self = Some k → (next_pk (orders w0) ≤ k)%nat) →
  hoare (footprint c D w0) (Order.save self)
    (λ o w, footprint c D w0 w ∧
            ∃ k, order_pk o = Some k ∧ (next_pk (orders w0) ≤ k)%nat)
    (footprint c D w0).
Proof.
  intros Hpk w Hfp. rewrite Order_save_eq. case_decide.
  - destruct (first_unused _ _) as [[r rest]|]; [|exact Hfp].
    destruct (footprint_Order_persist c D w0 (set_random_refs rest w)
                (Order.set_ref_number r self) Hpk Hfp)
      as (Hfp' & o & k & Ho & Hk).
    destruct (Order_persist _ _) as [[o'|e] w']; simpl in *; [|done].
    injection Ho as ->. eauto.
  - destruct (footprint_Order_persist c D w0 w self Hpk Hfp)
      as (Hfp' & o & k & Ho & Hk).
    destruct (Order_persist _ _) as [[o'|e] w']; simpl in *; [|done].
    injection Ho as ->. eauto.
Qed.

Lemma hoare_add_comment c D w0 content order :
  hoare (footprint c D w0) (Order.add_comment order content)
    (λ _ w, footprint c D w0 w) (footprint c D w0).
Proof.
  unfold Order.add_comment, Comment.create, Comment.save.
  destruct (order_pk order) as [o|].
  - intros w Hfp. exact Hfp.
  - intros w Hfp. exact Hfp.
Qed.

Lemma hoare_make_order `{Utils} c D w0 self :
  cart_pk self = c →
  hoare (footprint c D w0) (Cart.make_order self)
    (λ _ w, footprint c D w0 w) (footprint c D w0).
Proof.
  intros Hc. unfold Cart.make_order. case_decide; [by apply hoare_ret|].
  eapply hoare_bind.
  { apply hoare_Order_save. simpl. done. }
  intros order. simpl.
  apply (hoare_weaken _
           (λ w, footprint c D w0 w ∧
                 ∃ k, order_pk order = Some k ∧ (next_pk (orders w0) ≤ k)%nat) _ _
           (λ _ w, footprint c D w0 w) _ (footprint c D w0));
    [|tauto|tauto|done].
  intros w [Hfp (k & Hk & Hle)]. revert w Hfp.
  eapply hoare_bind; [apply hoare_add_comment|]. intros ?.
  eapply hoare_bind; [by apply hoare_lineitem_set|]. intros items. simpl.
  apply (hoare_weaken _
           (λ w, footprint c D w0 w ∧
                 ∀ x, x ∈ items → savable c w0 x ∧ related_exact (li_cart x) c) _ _
           (λ _ w, footprint c D w0 w) _ (footprint c D w0));
    [|tauto|tauto|done].
  intros w [Hfp Hitems]. revert w Hfp.
  eapply hoare_bind.
  { apply (hoare_for_each _ (λ _, footprint c D w0)).
    intros x [] Hx.
    apply (hoare_bind _ _ _ (λ _, footprint c D w0));
      [|intros ?; by apply hoare_ret].
    eapply hoare_weaken;
      [apply (hoare_LineItem_save_with no_kwargs c D w0)|..];
      [|done|intros ? ? Hw; exact (proj1 Hw)|done].
    intros j Hj. simpl in *. destruct (Hitems x Hx) as [Hsav _].
    split; [by apply Hsav|]. right. rewrite Hk. eauto. }
  intros ?. eapply hoare_bind.
  { apply hoare_Order_save. simpl. intros k'. rewrite Hk. by intros [= <-]. }
  intros order'. simpl.
  eapply hoare_bind.
  { eapply hoare_weaken; [apply hoare_Cart_save|..];
      [by intros ? [? _]|done|done]. }
  intros ?. apply hoare_ret. done.
Qed.

(** ** What the saves of products, carts and orders leave alone *)

Lemma Cart_save_line_items self w :
  line_items (Cart.save self w).2 = line_items w.
Proof. by rewrite Cart_save_eq. Qed.

Lemma Cart_save_orders self w : orders (Cart.save self w).2 = orders w.
Proof. by rewrite Cart_save_eq. Qed.

Lemma Order_save_line_items `{Utils} self w :
  line_items (Order.save self w).2 = line_items w.
Proof.
  rewrite Order_save_eq. case_decide; [|reflexivity].
  by destruct (first_unused _ _) as [[r rest]|].
Qed.

Lemma footprint_of_line_items c D w0 w :
  line_items w = line_items w0 → orders w = orders w0 → footprint c D w0 w.
Proof.
  intros Hli Ho. unfold footprint. rewrite Hli, Ho. repeat split; auto.
Qed.

(** The footprint of every operation that works for a cart or saves a
    product or a cart. *)
Lemma perform_footprint `{Utils} op w :
  match op with
  | op_Order_save _ | op_LineItem_save _ => True
  | _ => footprint (op_cart op) (op_deletes op) w (perform op w)
  end.
Proof.
  destruct op as [p|c|o|li|self p q|self p q|self li|self|self]; try done;
    unfold perform, op_cart, op_deletes.
  - by apply footprint_of_line_items.
  - apply footprint_of_line_items;
      [apply Cart_save_line_items|apply Cart_save_orders].
  - apply (hoare_final (footprint (cart_pk self) (λ _, False) w));
      [|apply footprint_refl]. by apply hoare_add_line_item.
  - apply (hoare_final (footprint (cart_pk self) (λ _, False) w));
      [|apply footprint_refl]. by apply hoare_update_line_item.
  - apply (hoare_final (footprint (cart_pk self) (λ j, li_pk li = Some j) w));
      [|apply footprint_refl]. by apply hoare_remove_line_item.
  - apply (hoare_final (footprint (cart_pk self) (λ _, False) w));
      [|apply footprint_refl]. by apply hoare_empty_cart.
  - apply (hoare_final (footprint (cart_pk self) (λ _, False) w));
      [|apply footprint_refl]. by apply hoare_make_order.
Qed.

(** ** The invariants the footprint carries *)

Lemma footprint_min_quantity c D w0 w :
  footprint c D w0 w → li_all min_quantity w0 → li_all min_quantity w.
Proof.
  intros (_ & _ & _ & _ & Hli) Hinv j r Hr.
  destruct (Hli j) as [Heq|[[_ Hnone]|[_ Hwr]]].
  - rewrite Heq in Hr. by apply (Hinv j).
  - congruence.
  - by apply (Hwr r Hr).
Qed.

Lemma footprint_exactly_one c D w0 w :
  footprint c D w0 w → li_all exactly_one w0 → li_all exactly_one w.
Proof.
  intros (_ & _ & _ & _ & Hli) Hinv j r Hr.
  destruct (Hli j) as [Heq|[[_ Hnone]|[_ Hwr]]].
  - rewrite Heq in Hr. by apply (Hinv j).
  - congruence.
  - destruct (Hwr r Hr) as [_ [[Hcar Hord]|[Hcar (k & Hord & _)]]].
    + destruct Hord as [[Hc Hord]|(r0 & Hr0 & Hcar0 & Hord)].
      * left. split; [by rewrite Hcar|done].
      * unfold exactly_one. rewrite Hcar, Hord, <- Hcar0. by apply (Hinv j).
    + right. split; [done|]. rewrite Hord. eauto.
Qed.

(** ** Returning computations *)

Lemma bind_Ok {A B} (c : M A) (k : A → M B) w b w' :
  bind c k w = (Ok b, w') →
  ∃ a w1, c w = (Ok a, w1) ∧ k a w1 = (Ok b, w').
Proof.
  unfold bind. destruct (c w) as [[a|e] w1]; [eauto|done].
Qed.

Lemma filter_cart_items self c w :
  cart_pk self = Some c → LineItem.filter_cart self w = items_of_cart c w.
Proof.
  intros Hc. unfold LineItem.filter_cart, items_of_cart, related_exact.
  by rewrite Hc.
Qed.

Lemma filter_cart_unsaved self w :
  cart_pk self = None → LineItem.filter_cart self w = items_without_cart w.
Proof.
  intros Hc. unfold LineItem.filter_cart, items_without_cart, related_exact.
  by rewrite Hc.
Qed.

Lemma filter_order_items self k w :
  order_pk self = Some k → LineItem.filter_order self w = items_of_order k w.
Proof.
  intros Hk. unfold LineItem.filter_order, items_of_order, related_exact.
  by rewrite Hk.
Qed.

Lemma filter_order_unsaved self w :
  order_pk self = None → LineItem.filter_order self w = items_without_order w.
Proof.
  intros Hk. unfold LineItem.filter_order, items_without_order, related_exact.
  by rewrite Hk.
Qed.

Lemma items_of_cart_line_items c w w' :
  line_items w' = line_items w → items_of_cart c w' = items_of_cart c w.
Proof. unfold items_of_cart, objects_all. simpl. by intros ->. Qed.

Lemma items_of_order_line_items k w w' :
  line_items w' = line_items w → items_of_order k w' = items_of_order k w.
Proof. unfold items_of_order, objects_all. simpl. by intros ->. Qed.

Lemma Cart_save_total self c w self' w' :
  cart_pk self = Some c →
  Cart.save self w = (Ok self', w') →
  cart_total_persisted self' w'.
Proof.
  intros Hc. rewrite Cart_save_eq. simpl. intros [= <- <-]. rewrite Hc. simpl.
  exists c. split; [done|]. split; [apply lookup_insert_eq|].
  by rewrite (filter_cart_items _ c).
Qed.

Lemma Order_persist_total `{Utils} self w o w' :
  is_Some (order_pk self) →
  Order_persist self w = (Ok o, w') →
  order_total_persisted o w'.
Proof.
  intros [k Hk]. unfold Order_persist. intros [= <- <-].
  exists k. rewrite Hk. simpl.
  split; [done|]. split; [apply lookup_insert_eq|].
  rewrite (items_of_order_line_items _ w) by done.
  case_decide; by rewrite (filter_order_items _ k).
Qed.

Lemma Order_save_total `{Utils} self w o w' :
  is_Some (order_pk self) →
  Order.save self w = (Ok o, w') →
  order_total_persisted o w'.
Proof.
  intros Hpk. rewrite Order_save_eq. case_decide.
  - destruct (first_unused _ _) as [[r rest]|]; [|done].
    by apply Order_persist_total.
  - by apply Order_persist_total.
Qed.

Lemma Order_save_pk `{Utils} self w o w' :
  Order.save self w = (Ok o, w') → is_Some (order_pk o).
Proof.
  rewrite Order_save_eq. unfold Order_persist. case_decide.
  - destruct (first_unused _ _) as [[r rest]|]; [|done].
    intros [= <- <-]. simpl. eauto.
  - intros [= <- <-]. simpl. eauto.
Qed.

Lemma order_total_persisted_frame o w w' :
  orders w' = orders w → line_items w' = line_items w →
  order_total_persisted o w → order_total_persisted o w'.
Proof.
  intros Ho Hli (k & Hk & Hrow & Htot). exists k.
  by rewrite Ho, (items_of_order_line_items k w w').
Qed.


(** ** The loop of [make_order] *)

Lemma checkout_loop k items : ∀ w,
  NoDup (li_pk <$> items) →
  (∀ x, x ∈ items →
        is_Some (li_pk x) ∧ li_product_cache x = None ∧
        is_Some (rows (products w) !! li_product_id x)) →
  ∃ w',
    for_each (λ li _, LineItem.save (LineItem.set_order_cart (Some k) None li) ;;;
                      ret tt) items tt w = (Ok tt, w') ∧
    products w' = products w ∧ carts w' = carts w ∧ orders w' = orders w ∧
    comments w' = comments w ∧
    (∀ x j, x ∈ items → li_pk x = Some j →
            rows (line_items w') !! j = Some (checked_out w k x)) ∧
    (∀ j, Some j ∉ li_pk <$> items →
          rows (line_items w') !! j = rows (line_items w) !! j).
Proof.
  induction items as [|x items IH]; intros w Hnd Hitems.
  - exists w. repeat split; try done. intros x j Hx. by apply elem_of_nil in Hx.
  - rewrite fmap_cons in Hnd. apply NoDup_cons in Hnd as [Hx Hnd].
    destruct (Hitems x) as ([j Hj] & Hcache & [p Hp]); [left|].
    simpl. unfold bind at 1. unfold bind at 1. rewrite LineItem_save_eq.
    unfold current_product.
    cbn [li_product_cache li_product_id LineItem.set_order_cart li_pk].
    rewrite Hcache, Hp, Hj. cbn [fmap option_fmap option_map default id].
    unfold ret at 1. cbv beta iota.
    match goal with
    | |- context [for_each _ items tt ?w1] => destruct (IH w1) as (w' & Hrun & Hw')
    end.
    { done. }
    { intros y Hy. destruct (Hitems y) as (? & ? & ?); [by right|]. done. }
    exists w'. split; [exact Hrun|].
    destruct Hw' as (Hprod & Hcarts & Hord & Hcom & Hin & Hout).
    simpl in Hprod, Hcarts, Hord, Hcom, Hin, Hout.
    split; [done|]. split; [done|]. split; [done|]. split; [done|]. split.
    + intros y jy Hy Hjy. apply elem_of_cons in Hy as [->|Hy].
      * rewrite Hout.
        -- assert (jy = j) as -> by congruence. rewrite lookup_insert_eq.
           unfold checked_out, LineItem_saved. simpl. by rewrite Hp, Hj.
        -- rewrite <- Hjy. exact Hx.
      * rewrite (Hin y jy Hy Hjy). unfold checked_out. reflexivity.
    + intros j' Hj'. apply not_elem_of_cons in Hj' as [Hne Hj'].
      rewrite (Hout j' Hj').
      apply lookup_insert_ne. congruence.
Qed.

(** ** The line items of a cart, of an order *)

Lemma elem_of_items_of_cart c w x :
  x ∈ items_of_cart c w ↔
  ∃ j r, rows (line_items w) !! j = Some r ∧ li_cart r = Some c
         ∧ x = from_db (j, r).
Proof.
  unfold items_of_cart. rewrite list_elem_of_filter, elem_of_line_items. split.
  - intros [Hc (j & r & Hr & ->)]. eauto.
  - intros (j & r & Hr & Hc & ->). eauto.
Qed.

Lemma elem_of_items_of_order k w x :
  x ∈ items_of_order k w ↔
  ∃ j r, rows (line_items w) !! j = Some r ∧ li_order r = Some k
         ∧ x = from_db (j, r).
Proof.
  unfold items_of_order. rewrite list_elem_of_filter, elem_of_line_items. split.
  - intros [Hc (j & r & Hr & ->)]. eauto.
  - intros (j & r & Hr & Hc & ->). eauto.
Qed.

Lemma line_items_pk_inj w x y :
  x ∈ objects_all w → y ∈ objects_all w → li_pk x = li_pk y → x = y.
Proof.
  intros (j & r & Hr & ->)%elem_of_line_items
         (j' & r' & Hr' & ->)%elem_of_line_items. simpl.
  intros [= <-]. congruence.
Qed.

Lemma NoDup_items_of_cart c w : NoDup (items_of_cart c w).
Proof. apply NoDup_filter, NoDup_line_items. Qed.

Lemma NoDup_items_of_order k w : NoDup (items_of_order k w).
Proof. apply NoDup_filter, NoDup_line_items. Qed.

Lemma NoDup_pk_items_of_cart c w : NoDup (li_pk <$> items_of_cart c w).
Proof.
  apply NoDup_fmap_2_strong; [|apply NoDup_items_of_cart].
  intros x y [_ Hx]%list_elem_of_filter [_ Hy]%list_elem_of_filter.
  by apply (line_items_pk_inj w).
Qed.

Lemma filter_nil_forall {A} (P : A → Prop) `{∀ x, Decision (P x)} (l : list A) :
  (∀ x, x ∈ l → ¬ P x) → filter P l = [].
Proof.
  induction l as [|x l IH]; intros Hall; [done|].
  rewrite filter_cons_False by (apply Hall; left).
  apply IH. intros y Hy. apply Hall. by right.
Qed.

(** ** [make_order], step by step *)

Lemma Order_create_eq `{Utils} w r rest :
  first_unused (order_ref_number <$> objects_all w) (random_refs w)
    = Some (r, rest) →
  Order.create w =
  let k := next_pk (orders w) in
  let t := total_of (items_without_order w) in
  let o := Order_ (Some k) Order.NON_TRAITEE t (get_VAT_prices t).1
             (get_VAT_prices t).2 r (slugify r) None in
  (Ok o, set_objects (table_insert k o (orders w)) (set_random_refs rest w)).
Proof.
  intros Hf. unfold Order.create. rewrite Order_save_eq, decide_True by done.
  rewrite Hf. unfold Order_persist. rewrite decide_True by done.
  rewrite filter_order_unsaved by done. reflexivity.
Qed.

Lemma add_comment_eq content o k w :
  order_pk o = Some k →
  ∃ t, Order.add_comment o content w = (Ok tt, set_objects t w)
       ∧ ∃ kc cm, rows t !! kc = Some cm ∧ comment_order cm = Some k
                  ∧ comment_content cm = content.
Proof.
  intros Hk. unfold Order.add_comment, Comment.create, Comment.save, bind.
  rewrite Hk. simpl. eexists. split; [reflexivity|].
  eexists _, _. split; [apply lookup_insert_eq|]. done.
Qed.

Lemma Order_save_again_eq `{Utils} self w :
  order_ref_number self ≠ EmptyString →
  order_slug self = slugify (order_ref_number self) →
  Order.save self w =
  let self2 :=
    Order.set_total_price (total_of (LineItem.filter_order self w)) self in
  let self3 := Order.set_vat (get_VAT_prices (order_total_price self2)) self2 in
  let k := default (next_pk (orders w)) (order_pk self) in
  (Ok (set_pk k self3),
   set_objects (table_insert k (set_pk k self3) (orders w)) w).
Proof.
  intros Href Hslug. rewrite Order_save_eq, decide_False by done.
  unfold Order_persist. case_decide as Hempty; [|reflexivity].
  assert (Order.set_slug (slugify (order_ref_number self)) self = self) as ->;
    [|reflexivity].
  destruct self; simpl in *. by rewrite Hslug.
Qed.

Lemma make_order_run `{Utils} (self : cart) (c : nat) (w : world) r rest :
  cart_pk self = Some c →
  cart_total_price self ≠ 0 →
  first_unused (order_ref_number <$> objects_all w) (random_refs w)
    = Some (r, rest) →
  r ≠ EmptyString →
  (∀ x, x ∈ items_of_cart c w →
        is_Some (rows (products w) !! li_product_id x)) →
  ∃ self' o w',
    Cart.make_order self w = (Ok (self', Some o), w') ∧
    order_pk o = Some (next_pk (orders w)) ∧
    order_ref_number o = r ∧
    order_customer_account o = cart_customer_account self ∧
    order_total_persisted o w' ∧
    cart_total_persisted self' w' ∧
    cart_pk self' = Some c ∧
    products w' = products w ∧
    (∃ kc cm, rows (comments w') !! kc = Some cm
              ∧ comment_order cm = Some (next_pk (orders w))) ∧
    (∀ j, rows (line_items w') !! j =
          (λ x, if decide (li_cart x = Some c)
                then checked_out w (next_pk (orders w)) (from_db (j, x))
                else x) <$> rows (line_items w) !! j).
Proof.
  intros Hc Htot Hf Hr Hprod.
  unfold Cart.make_order. rewrite decide_False by done.
  unfold bind at 1. rewrite (Order_create_eq w r rest Hf). cbv zeta beta iota.
  set (k := next_pk (orders w)).
  set (o1 := Order_ (Some k) _ _ _ _ _ _ _).
  set (w1 := set_objects _ _).
  destruct (add_comment_eq Order.default_comment o1 k w1 eq_refl)
    as (t & Hcomment & kc & cm & Hkc & Hcm & _).
  unfold bind at 1. rewrite Hcomment. cbv beta iota.
  set (w2 := set_objects t w1).
  unfold bind at 1. unfold Cart.lineitem_set. rewrite Hc.
  rewrite (filter_cart_items self c) by done.
  assert (Hitems : items_of_cart c w2 = items_of_cart c w) by done.
  rewrite Hitems.
  destruct (checkout_loop k (items_of_cart c w) w2) as (w3 & Hloop & Hw3).
  { apply NoDup_pk_items_of_cart. }
  { intros x Hx. split; [|split; [|by apply Hprod]].
    - apply elem_of_items_of_cart in Hx as (j & x' & _ & _ & ->). simpl. eauto.
    - apply elem_of_items_of_cart in Hx as (j & x' & _ & _ & ->). done. }
  destruct Hw3 as (Hprod3 & Hcarts3 & Hord3 & Hcom3 & Hin & Hout).
  unfold bind at 1.
  change (order_pk (Order.set_customer_account (cart_customer_account self) o1))
    with (Some k).
  rewrite Hloop. cbv beta iota.
  set (o1' := Order.set_customer_account _ o1).
  unfold bind at 1.
  assert (Hosave : Order.save o1' w3 = _)
    by (apply Order_save_again_eq; [exact Hr|reflexivity]).
  cbv zeta in Hosave. rewrite Hosave.
  cbv beta iota.
  unfold bind at 1.
  match goal with
  | |- context [Cart.save self ?w4] =>
      pose proof (Cart_save_total self c w4 _ _ Hc (Cart_save_eq self w4)) as Hctot;
      rewrite (Cart_save_eq self w4)
  end.
  cbv zeta beta iota. unfold ret.
  eexists _, _, _. split; [reflexivity|].
  split; [reflexivity|]. split; [reflexivity|]. split; [reflexivity|].
  split.
  { eapply order_total_persisted_frame; [| |eapply Order_save_total; [|exact Hosave]];
      [done|done|]. simpl. eauto. }
  split; [exact Hctot|]. split; [by rewrite Hc|].
  split; [simpl; by rewrite Hprod3|].
  split.
  { exists kc, cm. simpl. rewrite Hcom3. split; [exact Hkc|exact Hcm]. }
  intros j. simpl.
  destruct (rows (line_items w) !! j) as [x|] eqn:Hx; simpl.
  - case_decide as Hcx.
    + rewrite (Hin (from_db (j, x)) j); [reflexivity| |done].
      apply elem_of_items_of_cart. eauto.
    + rewrite Hout; [exact Hx|].
      intros (y & Hy & (j' & x' & Hx' & Hcx' & ->)%elem_of_items_of_cart)%list_elem_of_fmap.
      simpl in Hy. injection Hy as ->. congruence.
  - rewrite Hout; [exact Hx|].
    intros (y & Hy & (j' & x' & Hx' & Hcx' & ->)%elem_of_items_of_cart)%list_elem_of_fmap.
    simpl in Hy. injection Hy as ->. congruence.
Qed.

(** ** What the checkout leaves *)

Section checkout.
Context (w w' : world) (c k : nat).
Hypothesis Hrows : ∀ j, rows (line_items w') !! j =
        (λ x, if decide (li_cart x = Some c)
              then checked_out w k (from_db (j, x))
              else x) <$> rows (line_items w) !! j.

Lemma checkout_cart_empty : items_of_cart c w' = [].
Proof.
  apply filter_nil_forall.
  intros x (j & x' & Hx' & ->)%elem_of_line_items. simpl.
  rewrite Hrows in Hx'. destruct (rows (line_items w) !! j) as [y|]; [|done].
  simpl in Hx'. injection Hx' as <-. case_decide; [done|congruence].
Qed.

Hypothesis Hfresh : ∀ j x, rows (line_items w) !! j = Some x → li_order x ≠ Some k.

Lemma checkout_order_rows j x' :
  rows (line_items w') !! j = Some x' ∧ li_order x' = Some k ↔
  ∃ x, rows (line_items w) !! j = Some x ∧ li_cart x = Some c
       ∧ x' = checked_out w k (from_db (j, x)).
Proof.
  rewrite Hrows. split.
  - intros [Hx' Hk]. destruct (rows (line_items w) !! j) as [x|] eqn:Hx; [|done].
    simpl in Hx'. injection Hx' as <-. case_decide as Hc; [eauto|].
    by destruct (Hfresh j x).
  - intros (x & -> & Hc & ->). simpl. rewrite decide_True by done. done.
Qed.

Lemma checkout_order_items :
  items_of_order k w' ≡ₚ checked_out w k <$> items_of_cart c w.
Proof.
  apply NoDup_Permutation.
  - apply NoDup_items_of_order.
  - apply NoDup_fmap_2_strong; [|apply NoDup_items_of_cart].
    intros x y [_ Hx]%list_elem_of_filter [_ Hy]%list_elem_of_filter Heq.
    apply (line_items_pk_inj w); [done..|].
    by injection Heq.
  - intros x'. rewrite elem_of_items_of_order, list_elem_of_fmap. split.
    + intros (j & r' & Hr' & Hk & ->).
      destruct (proj1 (checkout_order_rows j r') (conj Hr' Hk))
        as (x & Hx & Hc & ->).
      exists (from_db (j, x)). split; [done|].
      apply elem_of_items_of_cart. eauto.
    + intros (x & -> & (j & r & Hr & Hc & ->)%elem_of_items_of_cart).
      exists j, (checked_out w k (from_db (j, r))).
      split; [|done].
      apply (checkout_order_rows j). eauto.
Qed.

Lemma checkout_keeps_up_to_date x :
  up_to_date w x →
  li_quantity (checked_out w k x) = li_quantity x ∧
  li_price (checked_out w k x) = li_price x.
Proof.
  intros (p & Hp & Hq & Hprice). unfold checked_out. simpl.
  rewrite Hp. simpl. rewrite Z.max_l by lia. done.
Qed.

Lemma checkout_total_up_to_date :
  (∀ x, x ∈ items_of_cart c w → up_to_date w x) →
  total_of (checked_out w k <$> items_of_cart c w)
  = total_of (items_of_cart c w).
Proof.
  induction (items_of_cart c w) as [|x l IH]; intros Hall; [done|].
  rewrite fmap_cons, !total_of_cons.
  rewrite IH by (intros y Hy; apply Hall; by right).
  destruct (checkout_keeps_up_to_date x) as [_ ->]; [apply Hall; left|done].
Qed.
End checkout.

(** ** Orders that stay as they are *)

Lemma items_of_order_perm k w w' :
  (∀ j x, li_order x = Some k →
          (rows (line_items w') !! j = Some x ↔ rows (line_items w) !! j = Some x)) →
  items_of_order k w' ≡ₚ items_of_order k w.
Proof.
  intros Hrows. apply NoDup_Permutation; try apply NoDup_items_of_order.
  intros x. rewrite !elem_of_items_of_order.
  split; intros (j & r & Hr & Hk & ->); exists j, r;
    (split; [by apply (Hrows j r Hk)|done]).
Qed.

Lemma order_settled_kept k w w' :
  order_settled k w →
  (table_wf (line_items w) → table_wf (line_items w')) →
  (next_pk (orders w) ≤ next_pk (orders w'))%nat →
  order_snapshot_kept k w w' →
  (∀ o', rows (orders w') !! k = Some o' →
         order_total_price o' = total_of (items_of_order k w')) →
  order_settled k w'.
Proof.
  intros (Hwf & Hk & Hdet & o & Ho & Htot) Hwf' Hn [Hprice Hrows] Htot'.
  split; [by apply Hwf'|]. split; [lia|]. split.
  - intros j x Hx Hxk. apply (Hdet j x); [|done]. by apply Hrows.
  - rewrite Ho in Hprice. simpl in Hprice.
    destruct (rows (orders w') !! k) as [o'|] eqn:Ho'; [|done].
    exists o'. split; [done|]. by apply Htot'.
Qed.

Lemma footprint_snapshot c (D : nat → Prop) w w' k :
  is_Some c →
  footprint c D w w' →
  order_settled k w →
  (∀ j x, D j → rows (line_items w) !! j = Some x → li_order x ≠ Some k) →
  order_snapshot_kept k w w' ∧ order_settled k w'.
Proof.
  intros [c' ->] (Hwf' & Hn & Hno & Ho & Hli) Hset HD.
  pose proof Hset as (Hwf & Hk & Hdet & o & Hrow & Htot).
  assert (Hkept : order_snapshot_kept k w w').
  { split; [by rewrite Ho|]. intros j x Hxk. split.
    - intros Hx'. destruct (Hli j) as [Heq|[[_ Hnone]|[_ Hwr]]].
      + by rewrite <- Heq.
      + congruence.
      + destruct (Hwr x Hx') as [_ [[Hcar Hord]|[_ (k' & Hord & Hle)]]].
        * destruct Hord as [[_ Hord]|(r0 & Hr0 & Hcar0 & Hord)]; [congruence|].
          rewrite Hxk in Hord. symmetry in Hord.
          by rewrite (Hdet j r0 Hr0 Hord) in Hcar0.
        * rewrite Hxk in Hord. injection Hord as <-. lia.
    - intros Hx. destruct (Hli j) as [Heq|[[Hdel _]|[Hown _]]].
      + by rewrite Heq.
      + by destruct (HD j x Hdel Hx).
      + destruct Hown as [(r0 & Hr0 & Hcar0)|Hle].
        * rewrite Hx in Hr0. injection Hr0 as <-.
          by rewrite (Hdet j x Hx Hxk) in Hcar0.
        * specialize (Hwf j x Hx). lia. }
  split; [done|]. apply (order_settled_kept k w); try done.
  intros o'. rewrite Ho, Hrow by done. intros [= <-].
  rewrite Htot. apply total_of_perm. symmetry. apply items_of_order_perm, Hkept.
Qed.

Lemma Order_persist_snapshot `{Utils} self w w1 k :
  line_items w1 = line_items w → orders w1 = orders w →
  order_settled k w →
  order_snapshot_kept k w (Order_persist self w1).2
  ∧ order_settled k (Order_persist self w1).2.
Proof.
  intros Hli Hord Hset.
  pose proof Hset as (Hwf & Hk & Hdet & o & Hrow & Htot).
  assert (Hitems : ∀ w2, line_items w2 = line_items w →
                         items_of_order k w2 = items_of_order k w).
  { intros w2 Hw2. by apply items_of_order_line_items. }
  assert (Htot' : ∀ o', rows (orders (Order_persist self w1).2) !! k = Some o' →
            order_total_price o' = total_of (items_of_order k w)).
  { unfold Order_persist. simpl. intros o'.
    destruct (decide (default (next_pk (orders w1)) (order_pk self) = k)) as [Hkk|Hne].
    - rewrite Hkk, lookup_insert_eq. intros [= <-]. simpl.
      assert (Hpk : order_pk self = Some k).
      { destruct (order_pk self) as [k'|]; simpl in Hkk; [congruence|].
        rewrite Hord in Hkk. lia. }
      case_decide; (rewrite (filter_order_items _ k) by done); by rewrite Hitems.
    - rewrite lookup_insert_ne, Hord, Hrow by done. by intros [= <-]. }
  assert (Hkept : order_snapshot_kept k w (Order_persist self w1).2).
  { split.
    - destruct (rows (orders (Order_persist self w1).2) !! k) as [o'|] eqn:Ho'.
      + rewrite Hrow. simpl. by rewrite (Htot' o' eq_refl), Htot.
      + exfalso. revert Ho'. unfold Order_persist. simpl.
        destruct (decide (default (next_pk (orders w1)) (order_pk self) = k))
          as [Hkk|Hne].
        * by rewrite Hkk, lookup_insert_eq.
        * by rewrite lookup_insert_ne, Hord, Hrow.
    - intros j x _. unfold Order_persist. simpl. by rewrite Hli. }
  split; [done|]. apply (order_settled_kept k w); try done.
  - unfold Order_persist. simpl. by rewrite Hli.
  - unfold Order_persist. simpl. rewrite Hord. lia.
  - intros o' Ho'. rewrite (Htot' o' Ho'). f_equal. symmetry. apply Hitems.
    unfold Order_persist. simpl. done.
Qed.

Lemma Order_save_snapshot `{Utils} self w k :
  order_settled k w →
  order_snapshot_kept k w (Order.save self w).2
  ∧ order_settled k (Order.save self w).2.
Proof.
  intros Hset. rewrite Order_save_eq. case_decide.
  - destruct (first_unused _ _) as [[r rest]|].
    + by apply Order_persist_snapshot.
    + simpl. split; [by split|]. exact Hset.
  - by apply Order_persist_snapshot.
Qed.

Lemma order_snapshot_kept_trans k w w' w'' :
  order_snapshot_kept k w w' → order_snapshot_kept k w' w'' →
  order_snapshot_kept k w w''.
Proof.
  intros [Hp Hr] [Hp' Hr']. split; [congruence|].
  intros j x Hx. rewrite (Hr' j x Hx). by apply Hr.
Qed.

Lemma perform_spares `{Utils} op w k :
  order_settled k w → spares k w op →
  order_snapshot_kept k w (perform op w) ∧ order_settled k (perform op w).
Proof.
  intros Hset Hop. pose proof (perform_footprint op w) as Hfp.
  destruct op as [p|c|o|li|self p q|self p q|self li|self|self];
    try (eapply footprint_snapshot; [exact Hop|exact Hfp|exact Hset|];
         by intros j x []).
  - apply (footprint_snapshot (Some 0%nat) (λ _, False)); [by eauto| |done|done].
    by apply footprint_of_line_items.
  - apply (footprint_snapshot (Some 0%nat) (λ _, False)); [by eauto| |done|done].
    apply footprint_of_line_items;
      [apply Cart_save_line_items|apply Cart_save_orders].
  - by apply Order_save_snapshot.
  - done.
  - destruct Hop as [Hsaved Hop].
    eapply footprint_snapshot; [exact Hsaved|exact Hfp|exact Hset|].
    intros j x Hdel Hx. by apply (Hop j x).
Qed.

Lemma perform_all_spares `{Utils} ops : ∀ w k,
  order_settled k w → all_spare k ops w →
  order_snapshot_kept k w (perform_all ops w)
  ∧ order_settled k (perform_all ops w).
Proof.
  induction ops as [|op ops IH]; intros w k Hset Hops; simpl.
  - split; [by split|done].
  - destruct Hops as [Hop Hops].
    destruct (perform_spares op w k Hset Hop) as [Hkept Hset'].
    destruct (IH _ k Hset' Hops) as [Hkept' Hset''].
    split; [|done]. by eapply order_snapshot_kept_trans.
Qed.

Lemma Order_save_key `{Utils} self w o w' :
  Order.save self w = (Ok o, w') →
  order_pk o = Some (default (next_pk (orders w)) (order_pk self)) ∧
  (default (next_pk (orders w)) (order_pk self) < next_pk (orders w'))%nat.
Proof.
  rewrite Order_save_eq. unfold Order_persist. case_decide.
  - destruct (first_unused _ _) as [[r rest]|]; [|done].
    intros [= <- <-]. simpl. split; [done|lia].
  - intros [= <- <-]. simpl. split; [done|lia].
Qed.

Lemma make_order_returned `{Utils} self w self' o w' :
  Cart.make_order self w = (Ok (self', Some o), w') →
  order_pk o = Some (next_pk (orders w)) ∧
  (next_pk (orders w) < next_pk (orders w'))%nat ∧
  order_total_persisted o w' ∧
  (∀ c, cart_pk self = Some c → cart_total_persisted self' w').
Proof.
  unfold Cart.make_order. case_decide; [done|].
  intros (o1 & w1 & Hcreate & Hk)%bind_Ok.
  apply bind_Ok in Hk as (? & w2 & Hcomment & Hk).
  apply bind_Ok in Hk as (items & w3 & _ & Hk).
  apply bind_Ok in Hk as (? & w4 & _ & Hk).
  apply bind_Ok in Hk as (o2 & w5 & Hosave & Hk).
  apply bind_Ok in Hk as (self2 & w6 & Hsave & [= <- <- <-]).
  unfold Order.create in Hcreate.
  destruct (Order_save_key _ _ _ _ Hcreate) as [Hpk1 _]. simpl in Hpk1.
  destruct (Order_save_key _ _ _ _ Hosave) as [Hpk2 Hlt]. simpl in Hpk2, Hlt.
  rewrite Hpk1 in Hpk2, Hlt. simpl in Hpk2, Hlt.
  assert (Hord : orders w6 = orders w5)
    by (by rewrite <- (Cart_save_orders self w5), Hsave).
  assert (Hli : line_items w6 = line_items w5)
    by (by rewrite <- (Cart_save_line_items self w5), Hsave).
  split; [done|]. split; [by rewrite Hord|]. split.
  - apply (order_total_persisted_frame _ w5); [done..|].
    eapply Order_save_total; [|exact Hosave]. simpl. rewrite Hpk1. eauto.
  - intros c Hc. by eapply Cart_save_total.
Qed.

Lemma make_order_settled `{Utils} self w self' o w' k :
  table_wf (line_items w) → order_keys_issued w →
  Cart.make_order self w = (Ok (self', Some o), w') →
  order_pk o = Some k →
  order_settled k w'.
Proof.
  intros Hwf Hiss Hrun Hk.
  destruct (make_order_returned _ _ _ _ _ Hrun) as (Hpk & Hlt & Htot & _).
  assert (k = next_pk (orders w)) as -> by congruence.
  pose proof (perform_footprint (op_make_order self) w) as Hfp.
  unfold perform in Hfp. rewrite Hrun in Hfp. simpl in Hfp.
  destruct Hfp as (Hwf' & _ & _ & _ & Hli).
  split; [by apply Hwf'|]. split; [done|]. split.
  - intros j x Hx Hxk. destruct (Hli j) as [Heq|[[[] _]|[_ Hwr]]].
    + rewrite Heq in Hx. specialize (Hiss j x _ Hx Hxk). lia.
    + destruct (Hwr x Hx) as [_ [[_ Hord]|[Hcar _]]]; [|done].
      destruct Hord as [[_ Hord]|(r0 & Hr0 & _ & Hord)]; [congruence|].
      rewrite Hxk in Hord. symmetry in Hord.
      specialize (Hiss j r0 _ Hr0 Hord). lia.
  - destruct Htot as (k' & Hk' & Hrow & Hsum).
    assert (k' = next_pk (orders w)) as -> by congruence. eauto.
Qed.

(** ** The sample shop *)

Lemma shop_one_line_rows :
  rows (line_items shop_one_line)
  = {[ 1%nat := LineItem_ (Some 1%nat) 1 None 1000 250000 (Some 1%nat) None ]}.
Proof. vm_compute. reflexivity. Qed.

Lemma shop_one_line_wf : table_wf (line_items shop_one_line).
Proof.
  intros j x. rewrite shop_one_line_rows.
  intros [<- _]%lookup_singleton_Some. vm_compute. lia.
Qed.

Lemma shop_one_line_issued : order_keys_issued shop_one_line.
Proof.
  intros j x k. rewrite shop_one_line_rows.
  intros [_ <-]%lookup_singleton_Some. done.
Qed.

Lemma shop_one_line_items :
  items_of_cart 1 shop_one_line
  = [LineItem_ (Some 1%nat) 1 None 1000 250000 (Some 1%nat) None].
Proof. vm_compute. reflexivity. Qed.

Lemma shop_open_wf : table_wf (line_items shop_open).
Proof. intros j x. vm_compute. done. Qed.

Lemma empty_db_li_all P refs : li_all P (empty_db refs).
Proof. intros j r Hr. simpl in Hr. by rewrite lookup_empty in Hr. Qed.
(** ** C2, C7 *)

(** C2. A cart whose total_price is zero makes no order: [make_order]
    returns no order and leaves the cart object and the whole database
    (orders, comments, line items, the cart's row) as they were. *)
Theorem make_order_zero_total_aborts `{Utils} (self : cart) (w : world) :
  cart_total_price self = 0 →
  Cart.make_order self w = (Ok (self, None), w).
Proof.
  intros Hzero. unfold Cart.make_order. by rewrite decide_True.
Qed.

Lemma make_order_zero_total_aborts_witness :
  @Cart.make_order sample_utils basket shop_open = (Ok (basket, None), shop_open).
Proof. apply (@make_order_zero_total_aborts sample_utils). reflexivity. Defined.


(** ** C6, C9, C10 *)

Lemma perform_exactly_one `{Utils} op w :
  cart_level op → li_all exactly_one w → li_all exactly_one (perform op w).
Proof.
  intros Hop Hinv. pose proof (perform_footprint op w) as Hfp.
  destruct op; try done; try (by eapply footprint_exactly_one).
  unfold perform, li_all. by rewrite Order_save_line_items.
Qed.

(** C6. Every persisted line item is attached to exactly one of a cart and
    an order: starting from a database where that holds (an empty one, for
    instance), it holds after every sequence of cart operations
    (add_line_item, update_line_item, remove_line_item, empty_cart,
    make_order) and saves of products, carts and orders. *)
Theorem line_item_attached_to_exactly_one `{Utils} (init w : world) :
  li_all exactly_one init →
  reachable init cart_level w →
  li_all exactly_one w.
Proof.
  intros Hinit Hreach. induction Hreach as [|w op _ IH Hop]; [done|].
  by apply perform_exactly_one.
Qed.

Lemma line_item_attached_to_exactly_one_witness :
  li_all exactly_one shop_one_line.
Proof.
  apply (@line_item_attached_to_exactly_one sample_utils
           (empty_db ["ref-a"; "ref-b"; "ref-c"]%string)).
  - apply empty_db_li_all.
  - unfold shop_one_line, shop_open.
    repeat (apply reachable_step; [|exact I]). apply reachable_init.
Defined.

Lemma perform_min_quantity `{Utils} op w :
  li_all min_quantity w → li_all min_quantity (perform op w).
Proof.
  intros Hinv. pose proof (perform_footprint op w) as Hfp.
  destruct op as [p|c|o|li|self p q|self p q|self li|self|self];
    try (by eapply footprint_min_quantity).
  - unfold perform, li_all. by rewrite Order_save_line_items.
  - unfold perform. rewrite LineItem_save_eq.
    destruct (current_product li w) as [p|]; [|done]. simpl.
    intros j r. simpl. destruct (decide (j = default (next_pk (line_items w)) (li_pk li))) as [->|Hne].
    + rewrite lookup_insert_eq. intros [= <-]. unfold min_quantity. simpl. lia.
    + rewrite lookup_insert_ne by done. apply Hinv.
Qed.





(** ** C8 *)

Lemma first_unused_Some used draws r rest :
  first_unused used draws = Some (r, rest) → r ∈ draws ∧ r ∉ used.
Proof.
  induction draws as [|d draws IH]; simpl; [done|].
  case_decide.
  - intros Hf. destruct (IH Hf). split; [by right|done].
  - intros [= <- <-]. split; [left|done].
Qed.

Lemma first_unused_is_Some used draws r :
  r ∈ draws → r ∉ used → is_Some (first_unused used draws).
Proof.
  induction draws as [|d draws IH]; simpl; [by intros ?%elem_of_nil|].
  intros Hin Hr. case_decide; [|by eauto].
  apply IH; [|done]. apply elem_of_cons in Hin as [->|]; done.
Qed.

Lemma ref_number_used (w : world) (r : string) :
  r ∈ order_ref_number <$> objects_all w ↔
  ∃ k o, rows (orders w) !! k = Some o ∧ order_ref_number o = r.
Proof.
  rewrite list_elem_of_fmap. split.
  - intros (o & -> & (k & o' & Ho' & ->)%elem_of_objects_all). eauto.
  - intros (k & o & Ho & <-). exists (from_db (k, o)). split; [done|].
    apply elem_of_objects_all. eauto.
Qed.



(** ** C4 *)

(** On a saved cart, and for a saved order, the totals are right: whenever
    one of the operations saves the cart or the order, the total_price it
    persists is the sum of the price fields of the line items attached to
    it in the database the operation leaves.  [add_line_item] and
    [update_line_item] save the cart unless they abort on a quantity
    below 1000; [make_order] saves both the order and the cart. *)
Lemma saved_totals_are_sums `{Utils} (self : cart) (c : nat) (w : world) :
  cart_pk self = Some c →
  (∀ product quantity self' w',
     Cart.add_line_item self product quantity w = (Ok self', w') →
     cart_total_persisted self' w' ∨ (quantity < 1000 ∧ self' = self)) ∧
  (∀ product quantity self' w',
     Cart.update_line_item self product quantity w = (Ok self', w') →
     cart_total_persisted self' w' ∨ (quantity < 1000 ∧ self' = self)) ∧
  (∀ line_item self' w',
     Cart.remove_line_item self line_item w = (Ok self', w') →
     cart_total_persisted self' w') ∧
  (∀ self' w',
     Cart.empty_cart self w = (Ok self', w') →
     cart_total_persisted self' w') ∧
  (∀ self' order w',
     Cart.make_order self w = (Ok (self', Some order), w') →
     cart_total_persisted self' w' ∧ order_total_persisted order w') ∧
  (∀ order order' w',
     is_Some (order_pk order) →
     Order.save order w = (Ok order', w') →
     order_total_persisted order' w').
Proof.
  intros Hc.
  split; [|split; [|split; [|split; [|split]]]].
  - intros product quantity self' w'. unfold Cart.add_line_item.
    intros ([li created] & w1 & _ & Hk)%bind_Ok. simpl in Hk.
    destruct created; simpl in Hk.
    + case_decide.
      * apply bind_Ok in Hk as ([] & w2 & _ & [= <- <-]). by right.
      * apply bind_Ok in Hk as (? & w2 & _ & Hsave). left.
        by eapply Cart_save_total.
    + apply bind_Ok in Hk as (? & w2 & _ & Hsave). left.
      by eapply Cart_save_total.
  - intros product quantity self' w'. unfold Cart.update_line_item.
    case_decide; [intros [= <- <-]; by right|].
    intros (r & w1 & _ & (? & w2 & _ & Hsave)%bind_Ok)%bind_Ok. left.
    by eapply Cart_save_total.
  - intros line_item self' w'. unfold Cart.remove_line_item.
    intros (? & w1 & _ & Hsave)%bind_Ok. by eapply Cart_save_total.
  - intros self' w'. unfold Cart.empty_cart.
    intros (items & w1 & _ & (? & w2 & _ & Hsave)%bind_Ok)%bind_Ok.
    by eapply Cart_save_total.
  - intros self' order w' Hrun.
    destruct (make_order_returned _ _ _ _ _ Hrun) as (_ & _ & Hot & Hct).
    split; [by apply (Hct c)|done].
  - intros order order' w' Hpk. by apply Order_save_total.
Qed.

(** An order that is not saved yet has no primary key, and the filter of
    [calculate_total_price] then selects the line items attached to no
    order: those are what the first save of an order sums. *)
Lemma Order_save_unsaved_total `{Utils} (self order' : order) (w w' : world) :
  order_pk self = None →
  Order.save self w = (Ok order', w') →
  order_total_price order' = total_of (items_without_order w).
Proof.
  intros Hpk. rewrite Order_save_eq. unfold Order_persist. case_decide.
  - destruct (first_unused _ _) as [[r rest]|]; [|done].
    intros [= <- _]. simpl.
    case_decide; by rewrite filter_order_unsaved.
  - intros [= <- _]. simpl. case_decide; by rewrite filter_order_unsaved.
Qed.

(** C4 fails on the code.  [Order.save] of a new order, which is what
    [Order.objects.create()] runs at the start of [make_order], persists
    as total_price the sum of the prices of the line items that are
    attached to no order, here the 2500.00 of the line in the cart,
    whereas the order has no line item and the sum of their prices is 0.
    The docstring of [calculate_total_price] asks for the sum over the
    line items in the order. *)
Theorem new_order_total_is_not_its_sum :
  ∃ order w',
    @Order.save sample_utils
      (Order_ None Order.NON_TRAITEE 0 0 0 EmptyString EmptyString None)
      shop_one_line = (Ok order, w') ∧
    order_pk order = Some 1%nat ∧
    rows (orders w') !! 1%nat = Some order ∧
    items_of_order 1 w' = [] ∧
    order_total_price order = 250000 ∧
    ¬ order_total_persisted order w'.
Proof.
  eexists _, _. split; [vm_compute; reflexivity|].
  split; [reflexivity|]. split; [reflexivity|]. split; [reflexivity|].
  split; [reflexivity|].
  intros (k & Hk & _ & Htot). injection Hk as <-. vm_compute in Htot.
  discriminate.
Qed.

(** ** C3 *)

Lemma add_line_item_new_eq product quantity self w :
  LineItem.filter_product_cart product self w = [] →
  Cart.add_line_item self product quantity w =
  match product_pk product, cart_pk self with
  | Some p, Some c =>
      let k := next_pk (line_items w) in
      let fresh := LineItem_ None p (Some product) 1000 0 (Some c) None in
      let li := LineItem_saved product (Some k) fresh in
      let w1 := set_objects (table_insert k (to_row li) (line_items w)) w in
      if decide (quantity < 1000)
      then (Ok self, set_objects (table_delete k (line_items w1)) w1)
      else (LineItem.save (LineItem.set_quantity quantity li) ;;; Cart.save self) w1
  | _, _ => (Raise ValueError, w)
  end.
Proof.
  intros Hnone. unfold Cart.add_line_item, LineItem.get_or_create.
  unfold bind at 1. rewrite Hnone. unfold LineItem.create.
  destruct (product_pk product) as [p|]; [|done].
  destruct (cart_pk self) as [c|]; [|done].
  unfold bind at 1. rewrite LineItem_save_eq. simpl.
  case_decide; reflexivity.
Qed.

Lemma add_line_item_existing_eq product quantity self w li :
  LineItem.filter_product_cart product self w = [li] →
  Cart.add_line_item self product quantity w =
  (LineItem.save (LineItem.set_quantity (li_quantity li + quantity) li) ;;;
   Cart.save self) w.
Proof.
  intros Hone. unfold Cart.add_line_item, LineItem.get_or_create.
  unfold bind at 1. by rewrite Hone.
Qed.




(** ** C1 *)




(** ** C5 *)

(** C5 as stated fails for the saves of line items and orders: once the
    widget is repriced, saving the order's line item again reprices it,
    and saving the order again changes its total_price from 2500.00 to
    3000.00. *)
Lemma order_changes_after_checkout :
  rows (line_items shop_ordered) !! 1%nat = Some ordered_line ∧
  rows (orders shop_ordered) !! 1%nat = Some the_order ∧
  li_order ordered_line = Some 1%nat ∧
  li_price <$> rows (line_items shop_order_resaved) !! 1%nat = Some 300000 ∧
  li_order <$> rows (line_items shop_order_resaved) !! 1%nat = Some (Some 1%nat) ∧
  order_total_price <$> rows (orders shop_order_resaved) !! 1%nat = Some 300000 ∧
  ¬ order_snapshot_kept 1 shop_ordered shop_order_resaved.
Proof.
  split; [reflexivity|]. split; [reflexivity|]. split; [reflexivity|].
  split; [reflexivity|]. split; [reflexivity|]. split; [reflexivity|].
  intros [Htot _]. vm_compute in Htot. discriminate.
Qed.

(** C5, as the code has it.  After [make_order] has returned an order, no
    sequence of operations on saved carts (add_line_item,
    update_line_item, empty_cart, make_order, and remove_line_item of a
    line item that is not the order's), product saves, cart saves and
    order saves changes
    the order's line items, their quantities and prices, or its
    total_price.  The database [make_order] started from has its line
    item keys and order references issued by the sequences. *)
Theorem order_kept_by_sparing_operations `{Utils} (self : cart) (w0 : world)
    (self' : cart) (order : order) (w : world) (k : nat)
    (ops : list operation) :
  table_wf (line_items w0) →
  order_keys_issued w0 →
  Cart.make_order self w0 = (Ok (self', Some order), w) →
  order_pk order = Some k →
  all_spare k ops w →
  order_snapshot_kept k w (perform_all ops w).
Proof.
  intros Hwf Hiss Hrun Hk Hops.
  apply perform_all_spares; [|done].
  by eapply make_order_settled.
Qed.

Lemma order_kept_by_sparing_operations_witness :
  order_snapshot_kept 1 shop_ordered
    (@perform_all sample_utils
       [op_Product_save (Product_ (Some 1%nat) "Widget" "widget" 300);
        op_add_line_item basket widget 2000;
        op_Order_save the_order;
        op_make_order (Cart_ (Some 1%nat) 600000 None)]
       shop_ordered).
Proof.
  apply (@order_kept_by_sparing_operations sample_utils basket_filled
           shop_one_line (Cart_ (Some 1%nat) 0 None) the_order).
  - apply shop_one_line_wf.
  - apply shop_one_line_issued.
  - vm_compute. reflexivity.
  - reflexivity.
  - cbn [all_spare spares]. repeat split; by eexists.
Defined.

(** * Further properties of the models *)

(** ** Saving twice *)

Lemma table_insert_twice {A} (k : nat) (x y : A) (t : table A) :
  table_insert k y (table_insert k x t) = table_insert k y t.
Proof.
  unfold table_insert. simpl. rewrite insert_insert_eq. f_equal. lia.
Qed.

Lemma Order_persist_eq `{Utils} (self : order) (k : nat) (w : world) :
  order_pk self = Some k →
  Order_persist self w =
  let s := if decide (order_slug self = EmptyString)
           then slugify (order_ref_number self) else order_slug self in
  let t := total_of (items_of_order k w) in
  let o := Order_ (Some k) (order_status self) t (get_VAT_prices t).1
             (get_VAT_prices t).2 (order_ref_number self) s
             (order_customer_account self) in
  (Ok o, set_objects (table_insert k o (orders w)) w).
Proof.
  intros Hk. unfold Order_persist. destruct self as [pk st tot va iv rf sl ca].
  cbn in *. subst pk.
  destruct (decide (sl = EmptyString)); cbn;
    rewrite !(filter_order_items _ k) by done; reflexivity.
Qed.





(** X3. [Order.save] of a saved order that has its reference number does
    not depend on the total_price and the VAT amounts the instance
    carries, draws no reference, and saving the order it returns once
    more changes nothing. *)
Theorem Order_save_twice `{Utils} (self : order) (k : nat) (t : Z) (v : Z * Z)
    (w : world) (self' : order) (w' : world) :
  order_pk self = Some k →
  order_ref_number self ≠ EmptyString →
  Order.save self w = (Ok self', w') →
  Order.save (Order.set_vat v (Order.set_total_price t self)) w = (Ok self', w') ∧
  Order.save self' w' = (Ok self', w') ∧
  random_refs w' = random_refs w.
Proof.
  intros Hk Href Hsave.
  rewrite Order_save_eq, decide_False in Hsave by done.
  rewrite (Order_persist_eq self k) in Hsave by done. cbv zeta in Hsave.
  injection Hsave as <- <-.
  split; [|split; [|done]].
  - rewrite Order_save_eq, decide_False by done.
    by rewrite (Order_persist_eq _ k).
  - rewrite Order_save_eq, decide_False by done.
    rewrite (Order_persist_eq _ k) by done. cbn.
    rewrite table_insert_twice.
    match goal with
    | |- context [items_of_order k ?w1] =>
        change (items_of_order k w1) with (items_of_order k w)
    end.
    destruct (decide (order_slug self = EmptyString)) as [Hs|Hs].
    + destruct (decide (slugify (order_ref_number self) = EmptyString));
        reflexivity.
    + rewrite decide_False by done. reflexivity.
Qed.

Lemma Order_save_twice_witness :
  ∃ self' w',
    @Order.save sample_utils the_order shop_ordered = (Ok self', w') ∧
    order_total_price self' = 250000 ∧
    @Order.save sample_utils
      (Order.set_vat (0, 0) (Order.set_total_price 0 the_order)) shop_ordered
      = (Ok self', w') ∧
    @Order.save sample_utils self' w' = (Ok self', w').
Proof.
  destruct (@Order_save_twice sample_utils the_order 1 0 (0, 0) shop_ordered
              the_order (@Order.save sample_utils the_order shop_ordered).2)
    as (Hany & Hagain & _).
  - reflexivity.
  - done.
  - vm_compute. reflexivity.
  - eexists _, _. split; [vm_compute; reflexivity|].
    split; [reflexivity|]. split; [exact Hany|exact Hagain].
Defined.

(** ** The cart operations, row by row *)

Lemma items_of_cart_rows c w w' :
  rows (line_items w') = rows (line_items w) →
  items_of_cart c w' = items_of_cart c w.
Proof. unfold items_of_cart, objects_all. simpl. by intros ->. Qed.

Lemma items_of_cart_insert_fresh c w w' k r :
  rows (line_items w') = <[k := r]> (rows (line_items w)) →
  rows (line_items w) !! k = None →
  li_cart r = Some c →
  items_of_cart c w' ≡ₚ from_db (k, r) :: items_of_cart c w.
Proof.
  intros Hrows Hk Hc. apply NoDup_Permutation.
  - apply NoDup_items_of_cart.
  - apply NoDup_cons. split; [|apply NoDup_items_of_cart].
    intros (j & r' & Hr' & _ & Heq)%elem_of_items_of_cart.
    assert (k = j) as <- by (by injection Heq). congruence.
  - intros x. rewrite elem_of_cons, !elem_of_items_of_cart. split.
    + intros (j & r' & Hr' & Hc' & ->). rewrite Hrows in Hr'.
      destruct (decide (j = k)) as [->|Hne].
      * rewrite lookup_insert_eq in Hr'. injection Hr' as <-. by left.
      * rewrite lookup_insert_ne in Hr' by done. right. eauto.
    + intros [->|(j & r' & Hr' & Hc' & ->)].
      * exists k, r. rewrite Hrows, lookup_insert_eq. done.
      * exists j, r'. rewrite Hrows, lookup_insert_ne by congruence. done.
Qed.

Lemma delete_loop items : ∀ w,
  (∀ x, x ∈ items → is_Some (li_pk x)) →
  ∃ w',
    for_each (λ li _, LineItem.delete li) items tt w = (Ok tt, w') ∧
    products w' = products w ∧ carts w' = carts w ∧ orders w' = orders w ∧
    comments w' = comments w ∧
    next_pk (line_items w') = next_pk (line_items w) ∧
    (∀ j, Some j ∈ li_pk <$> items → rows (line_items w') !! j = None) ∧
    (∀ j, Some j ∉ li_pk <$> items →
          rows (line_items w') !! j = rows (line_items w) !! j).
Proof.
  induction items as [|x items IH]; intros w Hitems.
  - exists w. repeat split; try done. by intros j ?%elem_of_nil.
  - destruct (Hitems x) as [j Hj]; [left|].
    simpl. unfold bind at 1. unfold LineItem.delete, Model_delete. simpl.
    rewrite Hj.
    match goal with
    | |- context [for_each _ items tt ?w1] =>
        destruct (IH w1) as (w' & Hrun & Hw')
    end.
    { intros y Hy. apply Hitems. by right. }
    exists w'. split; [exact Hrun|].
    destruct Hw' as (Hprod & Hcarts & Hord & Hcom & Hnext & Hin & Hout).
    simpl in *.
    split; [done|]. split; [done|]. split; [done|]. split; [done|].
    split; [done|]. split.
    + intros j' Hj'.
      destruct (decide (Some j' ∈ li_pk <$> items)) as [Hmem|Hmem].
      * by apply Hin.
      * rewrite Hout by done. apply elem_of_cons in Hj' as [[= ->]|]; [|done].
        apply lookup_delete_eq.
    + intros j' Hj'. apply not_elem_of_cons in Hj' as [Hne Hj'].
      rewrite Hout by done. apply lookup_delete_ne. congruence.
Qed.

Lemma add_line_item_new_run (self : cart) (c : nat) (product : product)
    (p : nat) (quantity : Z) (w : world) :
  cart_pk self = Some c →
  product_pk product = Some p →
  LineItem.filter_product_cart product self w = [] →
  1000 ≤ quantity →
  table_wf (line_items w) →
  ∃ self' w',
    Cart.add_line_item self product quantity w = (Ok self', w') ∧
    rows (line_items w') =
      <[next_pk (line_items w) := new_line w product p c quantity]>
        (rows (line_items w)) ∧
    rows (line_items w) !! next_pk (line_items w) = None ∧
    next_pk (line_items w') = S (next_pk (line_items w)) ∧
    cart_pk self' = Some c ∧
    rows (carts w') !! c = Some self' ∧
    cart_total_price self' =
      total_of (items_of_cart c w) + product_price product * quantity ∧
    products w' = products w ∧ orders w' = orders w ∧
    (∀ c', c' ≠ c → rows (carts w') !! c' = rows (carts w) !! c').
Proof.
  intros Hc Hp Hnone Hq Hwf.
  assert (Hfresh : rows (line_items w) !! next_pk (line_items w) = None).
  { destruct (rows (line_items w) !! next_pk (line_items w)) as [x|] eqn:Hx;
      [|done]. specialize (Hwf _ _ Hx). lia. }
  rewrite add_line_item_new_eq by done. rewrite Hp, Hc. cbv zeta.
  rewrite decide_False by lia.
  unfold bind at 1. rewrite LineItem_save_eq. cbn. rewrite table_insert_twice.
  rewrite Z.max_l by lia.
  rewrite Hc. cbn [default].
  rewrite (filter_cart_items _ c) by done.
  eexists _, _. split; [reflexivity|]. cbn.
  split; [reflexivity|]. split; [exact Hfresh|]. split; [lia|]. split; [done|].
  split; [apply lookup_insert_eq|]. split.
  - rewrite fold_left_total.
    match goal with |- 0 + total_of (items_of_cart c ?w1) = _ =>
      rewrite (total_of_perm _ _
               (items_of_cart_insert_fresh c w w1 (next_pk (line_items w))
                  (new_line w product p c quantity) eq_refl Hfresh eq_refl))
    end.
    rewrite total_of_cons. cbn. lia.
  - split; [done|]. split; [done|].
    intros c' Hne. by rewrite lookup_insert_ne.
Qed.

Lemma remove_line_item_run (self : cart) (c : nat) (line_item : line_item)
    (j : nat) (w : world) :
  cart_pk self = Some c →
  li_pk line_item = Some j →
  ∃ self' w',
    Cart.remove_line_item self line_item w = (Ok self', w') ∧
    rows (line_items w') = delete j (rows (line_items w)) ∧
    next_pk (line_items w') = next_pk (line_items w) ∧
    cart_total_persisted self' w' ∧
    (∀ c', c' ≠ c → rows (carts w') !! c' = rows (carts w) !! c') ∧
    products w' = products w ∧ orders w' = orders w.
Proof.
  intros Hc Hj. unfold Cart.remove_line_item, LineItem.delete, Model_delete.
  cbn [pk line_item_model]. rewrite Hj. unfold bind.
  match goal with
  | |- context [Cart.save self ?w1] =>
      pose proof (Cart_save_total self c w1 _ _ Hc (Cart_save_eq self w1)) as Htot;
      rewrite (Cart_save_eq self w1)
  end.
  eexists _, _. split; [reflexivity|]. cbn.
  split; [reflexivity|]. split; [reflexivity|]. split; [exact Htot|].
  split; [|done].
  intros c' Hne. rewrite Hc. cbn. by rewrite lookup_insert_ne.
Qed.

Lemma save_line_then_cart (self : cart) (c : nat) (li : line_item) (j : nat)
    (pr : product) (w : world) :
  cart_pk self = Some c →
  li_pk li = Some j →
  current_product li w = Some pr →
  ∃ self' w',
    (LineItem.save li ;;; Cart.save self) w = (Ok self', w') ∧
    rows (line_items w') =
      <[j := saved_line li j pr (Z.max (li_quantity li) 1000)]>
        (rows (line_items w)) ∧
    cart_total_persisted self' w'.
Proof.
  intros Hc Hj Hp. unfold bind. rewrite LineItem_save_eq, Hp. cbv zeta.
  rewrite Hj. cbn [default].
  match goal with
  | |- context [Cart.save self ?w1] =>
      pose proof (Cart_save_total self c w1 _ _ Hc (Cart_save_eq self w1)) as Htot;
      rewrite (Cart_save_eq self w1)
  end.
  eexists _, _. split; [reflexivity|]. cbn.
  split; [reflexivity|exact Htot].
Qed.

Lemma filter_product_cart_row product self w li :
  li ∈ LineItem.filter_product_cart product self w →
  ∃ j r, rows (line_items w) !! j = Some r ∧ li = from_db (j, r).
Proof.
  unfold LineItem.filter_product_cart. intros [_ Hin]%list_elem_of_filter.
  by apply elem_of_line_items.
Qed.

Lemma update_line_item_existing_eq product quantity self w li pr :
  LineItem.filter_product_cart product self w = [li] →
  current_product li w = Some pr →
  1000 ≤ quantity →
  Cart.update_line_item self product quantity w =
  (LineItem.save
     (LineItem.set_quantity quantity (LineItem_saved pr (li_pk li) li)) ;;;
   Cart.save self) w.
Proof.
  intros Hone Hp Hq. unfold Cart.update_line_item.
  rewrite decide_False by lia.
  unfold LineItem.update_or_create, LineItem.get_or_create.
  unfold bind at 1. unfold bind at 1. rewrite Hone. cbn [snd fst].
  unfold bind at 1. rewrite LineItem_save_empty_eq, Hp. reflexivity.
Qed.

(** X4. [empty_cart] on a saved cart returns; it deletes exactly the line
    items attached to the cart and no other row, and leaves the cart,
    persisted, with total_price 0; the other carts, the products, the
    orders and the comments are as before. *)
Theorem empty_cart_empties (self : cart) (c : nat) (w : world) :
  cart_pk self = Some c →
  ∃ self' w',
    Cart.empty_cart self w = (Ok self', w') ∧
    (∀ j r, rows (line_items w') !! j = Some r ↔
            rows (line_items w) !! j = Some r ∧ li_cart r ≠ Some c) ∧
    items_of_cart c w' = [] ∧
    rows (carts w') !! c = Some self' ∧
    cart_total_price self' = 0 ∧
    (∀ c', c' ≠ c → rows (carts w') !! c' = rows (carts w) !! c') ∧
    products w' = products w ∧ orders w' = orders w ∧ comments w' = comments w.
Proof.
  intros Hc. unfold Cart.empty_cart, Cart.lineitem_set. rewrite Hc.
  unfold bind at 1. rewrite (filter_cart_items self c) by done.
  destruct (delete_loop (items_of_cart c w) w) as (w1 & Hloop & Hw1).
  { intros x (j & r & _ & _ & ->)%elem_of_items_of_cart. simpl. eauto. }
  destruct Hw1 as (Hprod & Hcarts & Hord & Hcom & Hnext & Hin & Hout).
  unfold bind at 1. rewrite Hloop. rewrite Cart_save_eq. cbv zeta. rewrite Hc.
  cbn [default].
  assert (Hrows : ∀ j r, rows (line_items w1) !! j = Some r ↔
            rows (line_items w) !! j = Some r ∧ li_cart r ≠ Some c).
  { intros j r.
    destruct (decide (Some j ∈ li_pk <$> items_of_cart c w)) as [Hj|Hj].
    - rewrite (Hin j Hj). split; [done|]. intros [Hr Hne].
      apply list_elem_of_fmap in Hj
        as (y & Hy & (j' & r' & Hr' & Hc' & ->)%elem_of_items_of_cart).
      simpl in Hy. injection Hy as ->. congruence.
    - rewrite (Hout j Hj). split; [|tauto]. intros Hr. split; [done|].
      intros Hcr. apply Hj. apply list_elem_of_fmap.
      exists (from_db (j, r)). split; [done|].
      apply elem_of_items_of_cart. eauto. }
  assert (Hempty : items_of_cart c w1 = []).
  { apply filter_nil_forall.
    intros x (j & r & Hr & ->)%elem_of_line_items. simpl.
    by apply Hrows in Hr as [_ Hne]. }
  rewrite (filter_cart_items self c) by done. rewrite Hempty.
  eexists _, _. split; [reflexivity|]. cbn.
  split; [exact Hrows|]. split; [exact Hempty|].
  split; [apply lookup_insert_eq|]. split; [reflexivity|].
  split; [|done].
  intros c' Hne. rewrite lookup_insert_ne by done. by rewrite Hcarts.
Qed.

Lemma empty_cart_empties_witness :
  ∃ self' w',
    Cart.empty_cart basket_filled shop_one_line = (Ok self', w') ∧
    items_of_cart 1 w' = [] ∧ cart_total_price self' = 0.
Proof.
  destruct (empty_cart_empties basket_filled 1 shop_one_line)
    as (self' & w' & Hrun & _ & Hempty & _ & Hzero & _).
  - reflexivity.
  - exists self', w'. done.
Defined.









(** X9. For a product the cart holds no line of and a quantity of at
    least 1000, [update_line_item] does what [add_line_item] does: the
    same result, the same database, the same exception for an unsaved
    cart or product. *)
Theorem update_line_item_new_is_add (self : cart) (product : product)
    (quantity : Z) (w : world) :
  LineItem.filter_product_cart product self w = [] →
  1000 ≤ quantity →
  Cart.update_line_item self product quantity w
  = Cart.add_line_item self product quantity w.
Proof.
  intros Hnone Hq. unfold Cart.update_line_item, Cart.add_line_item.
  rewrite decide_False by lia.
  unfold LineItem.update_or_create, LineItem.get_or_create.
  unfold bind. rewrite Hnone.
  destruct (LineItem.create product self w) as [[li|e] w1];
    cbn [snd fst negb ret].
  - rewrite decide_False by lia. reflexivity.
  - reflexivity.
Qed.

Lemma update_line_item_new_is_add_witness :
  Cart.update_line_item basket widget 2000 shop_open
  = Cart.add_line_item basket widget 2000 shop_open.
Proof.
  apply update_line_item_new_is_add; [vm_compute; reflexivity|lia].
Defined.

(** X10. When two or more line items of the cart are for the product,
    [add_line_item], and [update_line_item] for a quantity of at least
    1000, raise MultipleObjectsReturned and leave the database as it
    was. *)
Theorem duplicate_lines_refused (self : cart) (product : product)
    (quantity : Z) (w : world) (x y : line_item) (l : list line_item) :
  LineItem.filter_product_cart product self w = x :: y :: l →
  Cart.add_line_item self product quantity w = (Raise MultipleObjectsReturned, w) ∧
  (1000 ≤ quantity →
   Cart.update_line_item self product quantity w
   = (Raise MultipleObjectsReturned, w)).
Proof.
  intros Hdup. split.
  - unfold Cart.add_line_item, LineItem.get_or_create. unfold bind at 1.
    by rewrite Hdup.
  - intros Hq. unfold Cart.update_line_item. rewrite decide_False by lia.
    unfold LineItem.update_or_create, LineItem.get_or_create.
    unfold bind at 1. unfold bind at 1. by rewrite Hdup.
Qed.

Lemma duplicate_lines_refused_witness :
  Cart.add_line_item basket widget 1000 shop_two_lines
  = (Raise MultipleObjectsReturned, shop_two_lines).
Proof.
  refine (proj1 (duplicate_lines_refused basket widget 1000 shop_two_lines
           (LineItem_ (Some 2%nat) 1 None 1000 250000 (Some 1%nat) None)
           (LineItem_ (Some 1%nat) 1 None 1000 250000 (Some 1%nat) None) [] _)).
  vm_compute. reflexivity.
Defined.

(** ** One line per product *)

Lemma one_line_rows w w' :
  rows (line_items w') = rows (line_items w) →
  one_line_per_product w → one_line_per_product w'.
Proof. unfold one_line_per_product. by intros ->. Qed.

Lemma one_line_insert w k r :
  one_line_per_product w →
  (is_Some (li_cart r) →
   ∀ j r0, rows (line_items w) !! j = Some r0 →
           li_cart r0 = li_cart r → li_product_id r0 = li_product_id r → j = k) →
  one_line_per_product (set_objects (table_insert k r (line_items w)) w).
Proof.
  intros Hu Hk j1 j2 r1 r2. cbn.
  destruct (decide (j1 = k)) as [->|H1], (decide (j2 = k)) as [->|H2];
    rewrite ?lookup_insert_eq, ?lookup_insert_ne by done.
  - done.
  - intros [= <-] Hr2 Hsome Hc Hp. symmetry. by apply (Hk Hsome j2 r2).
  - intros Hr1 [= <-] Hsome Hc Hp. apply (Hk ltac:(by rewrite <- Hc) j1 r1); done.
  - apply Hu.
Qed.

Lemma one_line_delete w k :
  one_line_per_product w →
  one_line_per_product (set_objects (table_delete k (line_items w)) w).
Proof.
  intros Hu j1 j2 r1 r2. cbn.
  intros [_ Hr1]%lookup_delete_Some [_ Hr2]%lookup_delete_Some.
  by apply Hu.
Qed.

Lemma placed_from_db w j r :
  one_line_per_product w → rows (line_items w) !! j = Some r →
  placed (from_db (j, r)) w.
Proof.
  intros Hu Hr Hsome j' r' Hr' Hc Hp. cbn in *. f_equal.
  apply (Hu j j' r r'); done.
Qed.

Lemma hoare_save_placed kwargs li :
  hoare (λ w, one_line_per_product w ∧ placed li w)
    (LineItem.save_with kwargs li)
    (λ li' w, one_line_per_product w ∧ placed li' w ∧
              li_cart li' = li_cart li ∧ li_product_id li' = li_product_id li)
    one_line_per_product.
Proof.
  intros w [Hu Hpl]. destruct kwargs.
  - change (LineItem.save_with no_kwargs li) with (LineItem.save li).
    rewrite LineItem_save_eq.
    destruct (current_product li w) as [p|]; [|done]. cbv zeta.
    set (k := default (next_pk (line_items w)) (li_pk li)).
    assert (Hu' : one_line_per_product
              (set_objects
                 (table_insert k (to_row (LineItem_saved p (Some k) li))
                    (line_items w)) w)).
    { apply one_line_insert; [done|]. cbn. intros Hsome j r0 Hr0 Hc Hp.
      specialize (Hpl Hsome j r0 Hr0 Hc Hp). subst k. by rewrite Hpl. }
    split; [done|]. split; [|done].
    intros Hsome j r Hr Hc Hp. cbn in Hsome, Hc, Hp |- *. f_equal. symmetry.
    apply (Hu' j k r (to_row (LineItem_saved p (Some k) li)));
      [done|cbn; apply lookup_insert_eq|..]; cbn; congruence.
  - rewrite LineItem_save_empty_eq.
    destruct (current_product li w) as [p|]; [|done].
    split; [done|]. split; [|done]. exact Hpl.
Qed.

Lemma hoare_delete_one_line li :
  hoare one_line_per_product (LineItem.delete li)
    (λ _, one_line_per_product) one_line_per_product.
Proof.
  unfold LineItem.delete, Model_delete. cbn [pk line_item_model].
  destruct (li_pk li) as [j|]; [|by apply hoare_raise].
  intros w Hu. by apply one_line_delete.
Qed.

Lemma hoare_Cart_save_one_line self :
  hoare one_line_per_product (Cart.save self)
    (λ _, one_line_per_product) one_line_per_product.
Proof. intros w Hu. rewrite Cart_save_eq. exact Hu. Qed.

Lemma hoare_Order_save_one_line `{Utils} self :
  hoare one_line_per_product (Order.save self)
    (λ _, one_line_per_product) one_line_per_product.
Proof.
  intros w Hu. pose proof (Order_save_line_items self w) as Hli.
  destruct (Order.save self w) as [[o|e] w']; cbn in Hli;
    apply (one_line_rows w); by rewrite ?Hli.
Qed.

Lemma hoare_get_or_create_one_line product self :
  hoare one_line_per_product (LineItem.get_or_create product self)
    (λ r w, one_line_per_product w ∧ placed r.1 w)
    one_line_per_product.
Proof.
  intros w Hu. unfold LineItem.get_or_create.
  destruct (LineItem.filter_product_cart product self w) as [|li [|li' l]] eqn:Hf.
  - unfold bind, LineItem.create.
    destruct (product_pk product) as [p|] eqn:Hp; [|done].
    destruct (cart_pk self) as [c|] eqn:Hc; [|done].
    assert (Hpl : placed (LineItem_ None p (Some product) 1000 0 (Some c) None) w).
    { intros _ j r Hr Hcr Hpr. cbn in *.
      assert (Hin : from_db (j, r) ∈ LineItem.filter_product_cart product self w).
      { apply list_elem_of_filter. split.
        - unfold related_exact. cbn. by rewrite Hp, Hc, Hcr, Hpr.
        - apply elem_of_line_items. eauto. }
      rewrite Hf in Hin. by apply elem_of_nil in Hin. }
    pose proof (hoare_save_placed no_kwargs
                  (LineItem_ None p (Some product) 1000 0 (Some c) None) w
                  (conj Hu Hpl)) as Hs.
    unfold LineItem.save.
    destruct (LineItem.save_with _ _ w) as [[li|e] w']; cbn; [tauto|done].
  - split; [done|]. cbn.
    assert (Hin : li ∈ LineItem.filter_product_cart product self w)
      by (rewrite Hf; left).
    apply list_elem_of_filter in Hin as [_ (j & r & Hr & ->)%elem_of_line_items].
    by apply placed_from_db.
  - done.
Qed.

Lemma placed_set_quantity q li w : placed li w → placed (LineItem.set_quantity q li) w.
Proof. done. Qed.

Lemma hoare_save_then_cart li self :
  hoare (λ w, one_line_per_product w ∧ placed li w)
    (LineItem.save li ;;; Cart.save self)
    (λ _, one_line_per_product) one_line_per_product.
Proof.
  eapply hoare_bind.
  - eapply hoare_weaken; [apply (hoare_save_placed no_kwargs li)|..];
      [done|intros ? ? Hw; exact (proj1 Hw)|done].
  - intros ?. apply hoare_Cart_save_one_line.
Qed.

Lemma hoare_add_line_item_one_line self product quantity :
  hoare one_line_per_product (Cart.add_line_item self product quantity)
    (λ _, one_line_per_product) one_line_per_product.
Proof.
  unfold Cart.add_line_item.
  eapply hoare_bind; [apply hoare_get_or_create_one_line|].
  intros [li created]. cbn [fst snd]. destruct created; cbn [negb].
  - case_decide.
    + eapply hoare_bind.
      * eapply hoare_weaken; [apply hoare_delete_one_line|..]; [tauto|done|done].
      * intros ?. by apply hoare_ret.
    + eapply hoare_weaken; [apply hoare_save_then_cart|..]; [|done|done].
      intros w [Hu Hpl]. split; [done|]. by apply placed_set_quantity.
  - eapply hoare_weaken; [apply hoare_save_then_cart|..]; [|done|done].
    intros w [Hu Hpl]. split; [done|]. by apply placed_set_quantity.
Qed.

Lemma hoare_update_line_item_one_line self product quantity :
  hoare one_line_per_product (Cart.update_line_item self product quantity)
    (λ _, one_line_per_product) one_line_per_product.
Proof.
  unfold Cart.update_line_item. case_decide; [by apply hoare_ret|].
  eapply hoare_bind.
  - unfold LineItem.update_or_create.
    eapply hoare_bind; [apply hoare_get_or_create_one_line|].
    intros [li created]. cbn [fst snd]. destruct created.
    + apply (hoare_ret _ _ (λ r w, one_line_per_product w ∧ placed r.1 w)). done.
    + eapply hoare_bind; [apply (hoare_save_placed update_fields_empty li)|].
      intros li'. apply hoare_ret. cbn. tauto.
  - intros [li created]. cbn [fst snd].
    eapply hoare_weaken; [apply hoare_save_then_cart|..]; [|done|done].
    intros w [Hu Hpl]. split; [done|]. by apply placed_set_quantity.
Qed.

Lemma hoare_remove_line_item_one_line self line_item :
  hoare one_line_per_product (Cart.remove_line_item self line_item)
    (λ _, one_line_per_product) one_line_per_product.
Proof.
  unfold Cart.remove_line_item.
  eapply hoare_bind; [apply hoare_delete_one_line|].
  intros ?. apply hoare_Cart_save_one_line.
Qed.

Lemma hoare_lineitem_set_one_line self :
  hoare one_line_per_product (Cart.lineitem_set self)
    (λ _, one_line_per_product) one_line_per_product.
Proof.
  unfold Cart.lineitem_set.
  destruct (cart_pk self); [|by apply hoare_raise]. by intros w Hu.
Qed.

Lemma hoare_empty_cart_one_line self :
  hoare one_line_per_product (Cart.empty_cart self)
    (λ _, one_line_per_product) one_line_per_product.
Proof.
  unfold Cart.empty_cart.
  eapply hoare_bind; [apply hoare_lineitem_set_one_line|]. intros items.
  eapply hoare_bind; [|intros ?; apply hoare_Cart_save_one_line].
  apply (hoare_for_each _ (λ _, one_line_per_product)).
  intros x [] _. apply hoare_delete_one_line.
Qed.

Lemma hoare_add_comment_one_line content order :
  hoare one_line_per_product (Order.add_comment order content)
    (λ _, one_line_per_product) one_line_per_product.
Proof.
  unfold Order.add_comment, Comment.create, Comment.save.
  destruct (order_pk order) as [o|]; intros w Hu; exact Hu.
Qed.

Lemma hoare_make_order_one_line `{Utils} self :
  hoare one_line_per_product (Cart.make_order self)
    (λ _, one_line_per_product) one_line_per_product.
Proof.
  unfold Cart.make_order. case_decide; [by apply hoare_ret|].
  eapply hoare_bind; [apply hoare_Order_save_one_line|]. intros order.
  eapply hoare_bind; [apply hoare_add_comment_one_line|]. intros ?.
  eapply hoare_bind; [apply hoare_lineitem_set_one_line|]. intros items.
  eapply hoare_bind.
  { apply (hoare_for_each _ (λ _, one_line_per_product)).
    intros x [] _.
    apply (hoare_bind _ _ _ (λ _, one_line_per_product));
      [|intros ?; by apply hoare_ret].
    eapply hoare_weaken; [apply (hoare_save_placed no_kwargs)|..];
      [|intros ? ? Hw; exact (proj1 Hw)|done].
    intros w Hu. split; [done|]. by intros [? [=]]. }
  intros ?. eapply hoare_bind; [apply hoare_Order_save_one_line|]. intros ?.
  eapply hoare_bind; [apply hoare_Cart_save_one_line|]. intros ?.
  by apply hoare_ret.
Qed.

Lemma perform_one_line `{Utils} op w :
  cart_level op → one_line_per_product w → one_line_per_product (perform op w).
Proof.
  intros Hop Hu.
  destruct op as [p|c|o|li|self p q|self p q|self li|self|self]; try done;
    unfold perform.
  - by apply (hoare_final one_line_per_product); [apply hoare_Order_save_one_line|].
  - by apply (hoare_final one_line_per_product);
      [apply hoare_add_line_item_one_line|].
  - by apply (hoare_final one_line_per_product);
      [apply hoare_update_line_item_one_line|].
  - by apply (hoare_final one_line_per_product);
      [apply hoare_remove_line_item_one_line|].
  - by apply (hoare_final one_line_per_product); [apply hoare_empty_cart_one_line|].
  - by apply (hoare_final one_line_per_product); [apply hoare_make_order_one_line|].
Qed.

Lemma one_line_filter w product self :
  one_line_per_product w → is_Some (cart_pk self) →
  (length (LineItem.filter_product_cart product self w) ≤ 1)%nat.
Proof.
  intros Hu [c Hc].
  destruct (LineItem.filter_product_cart product self w) as [|x [|y l]] eqn:Hf;
    cbn; [lia..|exfalso].
  assert (Hnd : NoDup (LineItem.filter_product_cart product self w))
    by apply NoDup_filter, NoDup_line_items.
  assert (Hx : x ∈ LineItem.filter_product_cart product self w)
    by (rewrite Hf; left).
  assert (Hy : y ∈ LineItem.filter_product_cart product self w)
    by (rewrite Hf; right; left).
  rewrite Hf in Hnd. apply NoDup_cons in Hnd as [Hnin _]. apply Hnin.
  apply list_elem_of_filter in Hx as [[Hxp Hxc] (j & r & Hr & ->)%elem_of_line_items].
  apply list_elem_of_filter in Hy as [[Hyp Hyc] (j' & r' & Hr' & ->)%elem_of_line_items].
  unfold related_exact in *. cbn in *.
  assert (j = j') as <-.
  { apply (Hu j j' r r'); try done; [rewrite Hxc, Hc; eauto|congruence..]. }
  assert (r = r') as <- by congruence. left.
Qed.

(** X11. No duplicate lines arise from the cart operations: from a
    database where no cart holds two line items for the same product
    (the empty one, say), every database reached by the cart operations
    and the saves of products, carts and orders, whether they return or
    raise, is such a database, and there the query of [add_line_item] and
    [update_line_item] for a saved cart and a product finds at most one
    line item. *)
Theorem cart_holds_one_line_per_product `{Utils} (init w : world) (self : cart)
    (product : product) :
  one_line_per_product init →
  reachable init cart_level w →
  is_Some (cart_pk self) →
  one_line_per_product w ∧
  (length (LineItem.filter_product_cart product self w) ≤ 1)%nat.
Proof.
  intros Hinit Hreach Hc.
  assert (Hu : one_line_per_product w).
  { induction Hreach as [|w op _ IH Hop]; [done|]. by apply perform_one_line. }
  split; [done|]. by apply one_line_filter.
Qed.

Lemma cart_holds_one_line_per_product_witness :
  one_line_per_product shop_one_line ∧
  (length (LineItem.filter_product_cart widget basket shop_one_line) ≤ 1)%nat.
Proof.
  apply (@cart_holds_one_line_per_product sample_utils
           (empty_db ["ref-a"; "ref-b"; "ref-c"]%string)).
  - intros j1 j2 r1 r2 Hr1. cbn in Hr1. by rewrite lookup_empty in Hr1.
  - apply (@reachable_step sample_utils _ _ _ (op_add_line_item basket widget 1000));
      [|done].
    apply (@reachable_step sample_utils _ _ _ (op_Cart_save (Cart_ None 0 None)));
      [|done].
    apply (@reachable_step sample_utils _ _ _
             (op_Product_save (Product_ None "Widget" "widget" 250))); [|done].
    apply reachable_init.
  - by eexists.
Defined.

(** ** Orders and their comments *)

Lemma add_comment_run content o k w :
  order_pk o = Some k →
  Order.add_comment o content w =
  (Ok tt, set_objects (table_insert (next_pk (comments w))
                         (new_comment w content k) (comments w)) w).
Proof.
  intros Hk. unfold Order.add_comment, Comment.create, Comment.save, bind.
  rewrite Hk. cbn. by rewrite table_insert_twice.
Qed.

(** X12. [add_comment] on a saved order returns and adds exactly one
    comment row, under the next key, with the given content and attached
    to the order, although it saves the comment twice; nothing else
    changes.  On an order that was never saved it raises ValueError and
    writes nothing. *)
Theorem add_comment_once (self : order) (content : string) (w : world) :
  match order_pk self with
  | None => Order.add_comment self content w = (Raise ValueError, w)
  | Some k =>
      ∃ w', Order.add_comment self content w = (Ok tt, w') ∧
        rows (comments w') =
          <[next_pk (comments w) := new_comment w content k]> (rows (comments w)) ∧
        next_pk (comments w') = S (next_pk (comments w)) ∧
        products w' = products w ∧ carts w' = carts w ∧ orders w' = orders w ∧
        line_items w' = line_items w
  end.
Proof.
  destruct (order_pk self) as [k|] eqn:Hk.
  - rewrite (add_comment_run content self k w Hk).
    eexists. split; [reflexivity|]. cbn. split; [done|]. split; [lia|done].
  - unfold Order.add_comment, Comment.create. by rewrite Hk.
Qed.

Lemma checkout_loop_random_refs k items w w' :
  for_each (λ li _, LineItem.save (LineItem.set_order_cart (Some k) None li) ;;;
                    ret tt) items tt w = (Ok tt, w') →
  random_refs w' = random_refs w.
Proof.
  intros Hrun.
  pose proof (hoare_for_each
    (λ li (_ : unit), LineItem.save (LineItem.set_order_cart (Some k) None li) ;;;
                      ret tt)
    (λ _ w1, random_refs w1 = random_refs w)
    (λ w1, random_refs w1 = random_refs w) items) as Hloop.
  specialize (Hloop ltac:(
    intros x [] _ w1 Hw1; unfold bind; rewrite LineItem_save_eq;
    destruct (current_product _ w1); cbn; exact Hw1) tt w eq_refl).
  by rewrite Hrun in Hloop.
Qed.





(** ** The cart of a customer account *)

Lemma elem_of_filter_cart a w x :
  x ∈ CustomerAccount.filter_cart a w ↔
  ∃ k r, rows (carts w) !! k = Some r ∧ cart_customer_account r = Some a
         ∧ x = from_db (k, r).
Proof.
  unfold CustomerAccount.filter_cart.
  rewrite list_elem_of_filter, elem_of_objects_all. split.
  - intros [Ha (k & r & Hr & ->)]. eauto.
  - intros (k & r & Hr & Ha & ->). split; [done|]. eauto.
Qed.

Lemma NoDup_carts (w : world) : NoDup (objects_all (A:=cart) w).
Proof.
  unfold objects_all. apply NoDup_fmap_2_strong; [|apply NoDup_map_to_list].
  intros [j r] [j' r'] Hin Hin' Heq.
  assert (j = j') as <- by (by injection Heq).
  apply elem_of_map_to_list in Hin, Hin'. congruence.
Qed.

Lemma filter_cart_new a w w' k c :
  rows (carts w') = <[k := c]> (rows (carts w)) →
  CustomerAccount.filter_cart a w = [] →
  cart_customer_account c = Some a →
  CustomerAccount.filter_cart a w' = [from_db (k, c)].
Proof.
  intros Hrows Hnone Ha. apply Permutation_singleton_r, NoDup_Permutation.
  - apply NoDup_filter, NoDup_carts.
  - apply NoDup_singleton.
  - intros x. rewrite list_elem_of_singleton, elem_of_filter_cart. split.
    + intros (j & r & Hr & Har & ->). rewrite Hrows in Hr.
      destruct (decide (j = k)) as [->|Hne].
      * rewrite lookup_insert_eq in Hr. by injection Hr as <-.
      * rewrite lookup_insert_ne in Hr by done.
        assert (Hin : from_db (j, r) ∈ CustomerAccount.filter_cart a w)
          by (apply elem_of_filter_cart; eauto).
        rewrite Hnone in Hin. by apply elem_of_nil in Hin.
    + intros ->. exists k, c. by rewrite Hrows, lookup_insert_eq.
Qed.

Lemma create_cart_new_eq self a w :
  ca_pk self = Some a →
  ca_cart_cache self = None →
  CustomerAccount.filter_cart a w = [] →
  CustomerAccount.create_cart self w =
  (Ok (CustomerAccount.set_cart_cache (Some (new_cart w a)) self),
   set_objects (table_insert (next_pk (carts w)) (new_cart w a) (carts w)) w).
Proof.
  intros Ha Hcache Hnone.
  unfold CustomerAccount.create_cart, CustomerAccount.related_cart.
  rewrite Hcache, Ha, Hnone. unfold CustomerAccount.Cart_create. cbn [ca_pk
    CustomerAccount.set_cart_cache]. rewrite Ha.
  unfold bind. rewrite Cart_save_eq. cbn.
  by rewrite filter_cart_unsaved.
Qed.




Lemma shop_ordered_rows :
  rows (line_items shop_ordered) = {[ 1%nat := ordered_line ]}.
Proof. vm_compute. reflexivity. Qed.

